(** * AggregationService: aggregation, row count and group points

    A shallow embedding of the TypeScript service [AggregationService]
    (statistics decoding, row counting and the group-point engine) and the
    properties its specification states about it.

    Conventions of the embedding:
    - JavaScript values that come back from the store are the inductive
      [JsValue]; numbers are modelled over the integers plus [NaN];
      an object is given by what the service can observe of it (the results
      of [toString()], and for a [Date] also [toISOString()] and its time
      value);
    - a JavaScript object used as a dictionary is a [gmap string _];
    - the Knex query builder is a record of its clause groups, mutated by
      explicit state passing;
    - [async] methods run in the monad [Eff]: an error or a value, together
      with the trace of calls made to the collaborators. *)

From Stdlib Require Import ZArith Bool Ascii String.
From stdpp Require Import base option list strings gmap pretty.

Open Scope Z_scope.
Open Scope string_scope.
Open Scope list_scope.

(** ** JavaScript values *)

Module Js.

(** A JavaScript [number]: an integer value or [NaN]. *)
Inductive number : Type :=
| Num (z : Z)
| NaN.

(** The values a result row of the store can hold. [JDate] is a [Date]
    object, given by its time value, [toISOString()] and [toString()];
    [JObject] is any other object, given by its [toString()]. *)
Inductive JsValue : Type :=
| JUndefined
| JNull
| JBool (b : bool)
| JNumber (n : number)
| JBigInt (z : Z)
| JString (s : string)
| JDate (time : number) (iso : string) (str : string)
| JObject (str : string).

#[global] Instance JsValue_inhabited : Inhabited JsValue := populate JUndefined.

Definition number_eqb (a b : number) : bool :=
  match a, b with
  | Num x, Num y => Z.eqb x y
  | _, _ => false
  end.

(** [a === b]. Two [NaN] are never equal, values of different types are
    never equal, and an object is equal to itself only, by reference: the
    service never compares an object (it stringifies it first), so two
    objects compare as different references here. *)
Definition strict_equals (a b : JsValue) : bool :=
  match a, b with
  | JUndefined, JUndefined => true
  | JNull, JNull => true
  | JBool x, JBool y => Bool.eqb x y
  | JNumber x, JNumber y => number_eqb x y
  | JBigInt x, JBigInt y => Z.eqb x y
  | JString x, JString y => bool_decide (x = y)
  | _, _ => false
  end.

(** lodash [isObject]: the value has type object (and is not [null]). *)
Definition isObject (v : JsValue) : bool :=
  match v with
  | JDate _ _ _ | JObject _ => true
  | _ => false
  end.

Definition isDate (v : JsValue) : bool :=
  match v with
  | JDate _ _ _ => true
  | _ => false
  end.

Definition number_to_string (n : number) : string :=
  match n with
  | Num z => pretty z
  | NaN => "NaN"
  end.

(** [String(v)], which is also what a template literal does with [v]. *)
Definition String_ (v : JsValue) : string :=
  match v with
  | JUndefined => "undefined"
  | JNull => "null"
  | JBool true => "true"
  | JBool false => "false"
  | JNumber n => number_to_string n
  | JBigInt z => pretty z
  | JString s => s
  | JDate _ _ str => str
  | JObject str => str
  end.

Section Number.
(** ECMAScript's [StringToNumber], the conversion of a string to a
    number, is a builtin of the language. *)
Variable StringToNumber : string -> number.

(** [Number(v)]. *)
Definition Number_ (v : JsValue) : number :=
  match v with
  | JUndefined => NaN
  | JNull => Num 0
  | JBool true => Num 1
  | JBool false => Num 0
  | JNumber n => n
  | JBigInt z => Num z
  | JString s => StringToNumber s
  | JDate time _ _ => time
  | JObject str => StringToNumber str
  end.
End Number.

(** [a > b] on numbers: false as soon as one side is [NaN]. *)
Definition number_gt (a b : number) : bool :=
  match a, b with
  | Num x, Num y => Z.ltb y x
  | _, _ => false
  end.

(** The truth value of an optional string: [undefined] and the empty string
    are falsy. *)
Definition truthy (s : option string) : bool :=
  match s with
  | Some s => negb (bool_decide (s = ""))
  | None => false
  end.

End Js.
Import Js.

(** ** Errors and results *)

Inductive Error : Type :=
| NotFound
| PayloadTooLarge (message : string)
| TypeError
| StoreFailure (message : string).

Inductive Result (A : Type) : Type :=
| Ok (a : A)
| Err (e : Error).
Arguments Ok {A} a.
Arguments Err {A} e.

#[global] Instance Result_ret : MRet Result := @Ok.
#[global] Instance Result_bind : MBind Result := fun A B f r =>
  match r with
  | Ok a => f a
  | Err e => Err e
  end.

(** ** Fields and group points *)

(** [DbFieldType] is declared in the core package; the service
    distinguishes [Json] from all the other storage types. *)
Inductive DbFieldType : Type :=
| Json
| OtherDbFieldType (name : string).

Definition is_Json (t : DbFieldType) : bool :=
  match t with
  | Json => true
  | OtherDbFieldType _ => false
  end.

(** What the service reads of a field instance. *)
Record IFieldInstance : Type := {
  id : string;
  name : string;
  dbFieldName : string;
  dbFieldType : DbFieldType;
  convertDBValue2CellValue : JsValue -> JsValue;
}.

Inductive IGroupPoint : Type :=
| Header (id : string) (depth : nat) (value : JsValue)
| Row (count : number).

(** A result row of the store: a JavaScript object, column name to value.
    A column that is not there reads as [undefined]. *)
Abbreviation RowObject := (gmap string JsValue).

Definition get (item : RowObject) (key : string) : JsValue :=
  default JUndefined (item !! key).

(** ** The grouping engine: decoding the grouped result

    [groupDbCollection2GroupPoints] turns the ordered rows of the grouped
    query into the flat sequence of group points. *)

(** The two variables [firstDbFieldValue] and [secondDbFieldValue] start as
    [Symbol()], a value that is not equal to anything a row holds, and later
    hold the value last seen. *)
Inductive LastSeen : Type :=
| FreshSymbol
| Seen (v : JsValue).

(** [lastSeen === fieldValue] *)
Definition same_as (lastSeen : LastSeen) (fieldValue : JsValue) : bool :=
  match lastSeen with
  | FreshSymbol => false
  | Seen v => strict_equals v fieldValue
  end.

Record DecodeState : Type := {
  firstDbFieldValue : LastSeen;
  secondDbFieldValue : LastSeen;
  groupPoints : list IGroupPoint;
}.

Definition push (p : IGroupPoint) (st : DecodeState) : DecodeState :=
  {| firstDbFieldValue := firstDbFieldValue st;
     secondDbFieldValue := secondDbFieldValue st;
     groupPoints := groupPoints st ++ [p] |}.

(** [Array.prototype.forEach], the callback receiving the element and its
    index; the callback may throw, which ends the loop. *)
Fixpoint forEach {A St : Type} (callback : St -> A -> nat -> Result St)
    (array : list A) (index : nat) (st : St) : Result St :=
  match array with
  | [] => Ok st
  | x :: rest => st' ← callback st x index; forEach callback rest (S index) st'
  end.

Section Decode.

(** [string2Hash] comes from the utilities of the repository, and
    [StringToNumber] from the language. *)
Variable string2Hash : string -> number.
Variable StringToNumber : string -> number.

Definition fieldValueOf (item : RowObject) (field : IFieldInstance) : JsValue :=
  if isObject (get item (dbFieldName field))
  then JString (String_ (get item (dbFieldName field)))
  else get item (dbFieldName field).

Definition headerOf (field : IFieldInstance) (index : nat) (fieldValue : JsValue)
    : IGroupPoint :=
  Header (number_to_string (string2Hash (id field +:+ "_" +:+ String_ fieldValue)))
         index
         (convertDBValue2CellValue field fieldValue).

(** The callback of the inner loop, over the group fields. A [return]
    leaves the callback for this field only. An entry of [groupFields] is
    [undefined] when the field map has no such field: destructuring it
    throws. *)
Definition fieldCallback (item : RowObject) (st : DecodeState)
    (field : option IFieldInstance) (index : nat) : Result DecodeState :=
  match field with
  | None => Err TypeError
  | Some field =>
    let fieldValue := fieldValueOf item field in
    let at0 :=
      if Nat.eqb index 0 then
        if same_as (firstDbFieldValue st) fieldValue then None
        else Some {| firstDbFieldValue := Seen fieldValue;
                     secondDbFieldValue := FreshSymbol;
                     groupPoints := groupPoints st |}
      else Some st in
    match at0 with
    | None => Ok st
    | Some st0 =>
      let at1 :=
        if Nat.eqb index 1 then
          if same_as (secondDbFieldValue st0) fieldValue then None
          else Some {| firstDbFieldValue := firstDbFieldValue st0;
                       secondDbFieldValue := Seen fieldValue;
                       groupPoints := groupPoints st0 |}
        else Some st0 in
      match at1 with
      | None => Ok st0
      | Some st1 => Ok (push (headerOf field index fieldValue) st1)
      end
    end
  end.

(** The callback of the outer loop, over the result rows. *)
Definition itemCallback (groupFields : list (option IFieldInstance))
    (st : DecodeState) (item : RowObject) (_ : nat) : Result DecodeState :=
  let count := get item "__c" in
  st' ← forEach (fieldCallback item) groupFields 0%nat st;
  Ok (push (Row (Number_ StringToNumber count)) st').

Definition initialState : DecodeState :=
  {| firstDbFieldValue := FreshSymbol;
     secondDbFieldValue := FreshSymbol;
     groupPoints := [] |}.

Definition groupDbCollection2GroupPoints (groupResult : list RowObject)
    (groupFields : list (option IFieldInstance)) : Result (list IGroupPoint) :=
  st ← forEach (itemCallback groupFields) groupResult 0%nat initialState;
  Ok (groupPoints st).

End Decode.

(** ** Decoding one statistic *)

(** [StatisticsFunc] is declared in the core package. The service names six
    of its members; the others are kept by name. *)
Inductive StatisticsFunc : Type :=
| PercentEmpty
| PercentFilled
| PercentUnique
| PercentChecked
| PercentUnChecked
| DateRangeOfMonths
| OtherStatisticsFunc (name : string).

#[global] Instance StatisticsFunc_eq_dec : EqDecision StatisticsFunc.
Proof. solve_decision. Defined.

(** [includes] of an array. *)
Definition includes (array : list StatisticsFunc) (x : StatisticsFunc) : bool :=
  bool_decide (x ∈ array).

(** [s.split(sep)] for a separator of one character. *)
Fixpoint split (sep : ascii) (s : string) : list string :=
  match s with
  | EmptyString => [EmptyString]
  | String c rest =>
    if bool_decide (c = sep) then EmptyString :: split sep rest
    else match split sep rest with
         | [] => [String c EmptyString]
         | piece :: pieces => String c piece :: pieces
         end
  end.

Definition comma : ascii := ",".

Definition convertValueToNumberOrString (currentValue : JsValue) : JsValue :=
  match currentValue with
  | JBigInt z => JNumber (Num z)
  | JNumber n => JNumber n
  | JDate _ iso _ => JString iso
  | JUndefined | JNull => JNull
  | JBool _ | JString _ | JObject _ => JString (String_ currentValue)
  end.

Section FormatConvertValue.

(** [dayjs(maxTime).diff(minTime, 'month')]: the month difference of the
    date library, which is not part of the repository. *)
Variable dayjs_diff_month : string -> string -> number.

Definition calculateDateRangeOfMonths (currentValue : string) : number :=
  let pieces := split comma currentValue in
  let maxTime := pieces !! 0%nat in
  let minTime := pieces !! 1%nat in
  match maxTime, minTime with
  | Some maxT, Some minT =>
    if truthy maxTime && truthy minTime then dayjs_diff_month maxT minT else Num 0
  | _, _ => Num 0
  end.

Definition defaultToZero : list StatisticsFunc :=
  [PercentEmpty; PercentFilled; PercentUnique; PercentChecked; PercentUnChecked].

(** [convertValue ?? 0] *)
Definition orZero (convertValue : JsValue) : JsValue :=
  match convertValue with
  | JUndefined | JNull => JNumber (Num 0)
  | _ => convertValue
  end.

Definition formatConvertValue (currentValue : JsValue)
    (aggFunc : option StatisticsFunc) : JsValue :=
  let convertValue := convertValueToNumberOrString currentValue in
  match aggFunc with
  | None => convertValue
  | Some aggFunc =>
    let convertValue :=
      if bool_decide (aggFunc = DateRangeOfMonths) then
        match currentValue with
        | JString s => JNumber (calculateDateRangeOfMonths s)
        | _ => convertValue
        end
      else convertValue in
    if includes defaultToZero aggFunc then orZero convertValue else convertValue
  end.

End FormatConvertValue.

(** ** The Knex query builder

    The builder keeps its statements by group ([columns], [where], [group],
    ...); each call of the service adds to a group or empties one. Text
    produced by a collaborator (a predicate, a sort key) is kept as it is. *)

Module Knex.

(** A statement of the [columns] group: a selected column, or an aggregate
    such as the count of the rows under an alias. *)
Inductive ColumnStatement : Type :=
| column (value : string)
| aggregate (method : string) (value : string) (aggregateDistinct : bool)
    (alias : option string).

Record QueryBuilder : Type := {
  tableName : string;
  columns : list ColumnStatement;
  counter : list string;
  join : list string;
  where_ : list string;
  group : list string;
  having : list string;
  order : list string;
  limit : option Z;
  offset : option Z;
}.

(** [knex(tableName)] *)
Definition knex (tableName : string) : QueryBuilder :=
  {| tableName := tableName; columns := []; counter := []; join := [];
     where_ := []; group := []; having := []; order := [];
     limit := None; offset := None |}.

Definition clearSelect (qb : QueryBuilder) : QueryBuilder :=
  {| tableName := tableName qb; columns := []; counter := counter qb;
     join := join qb; where_ := where_ qb; group := group qb;
     having := having qb; order := order qb;
     limit := limit qb; offset := offset qb |}.

Definition clearCounters (qb : QueryBuilder) : QueryBuilder :=
  {| tableName := tableName qb; columns := columns qb; counter := [];
     join := join qb; where_ := where_ qb; group := group qb;
     having := having qb; order := order qb;
     limit := limit qb; offset := offset qb |}.

Definition clearGroup (qb : QueryBuilder) : QueryBuilder :=
  {| tableName := tableName qb; columns := columns qb; counter := counter qb;
     join := join qb; where_ := where_ qb; group := [];
     having := having qb; order := order qb;
     limit := limit qb; offset := offset qb |}.

Definition clearHaving (qb : QueryBuilder) : QueryBuilder :=
  {| tableName := tableName qb; columns := columns qb; counter := counter qb;
     join := join qb; where_ := where_ qb; group := group qb;
     having := []; order := order qb;
     limit := limit qb; offset := offset qb |}.

Definition clearOrder (qb : QueryBuilder) : QueryBuilder :=
  {| tableName := tableName qb; columns := columns qb; counter := counter qb;
     join := join qb; where_ := where_ qb; group := group qb;
     having := having qb; order := [];
     limit := limit qb; offset := offset qb |}.

(** [clear(statement)], for the two names the service passes. *)
Definition clear (statement : string) (qb : QueryBuilder) : QueryBuilder :=
  {| tableName := tableName qb; columns := columns qb; counter := counter qb;
     join := join qb; where_ := where_ qb; group := group qb;
     having := having qb; order := order qb;
     limit := if bool_decide (statement = "limit") then None else limit qb;
     offset := if bool_decide (statement = "offset") then None else offset qb |}.

Definition addColumn (c : ColumnStatement) (qb : QueryBuilder) : QueryBuilder :=
  {| tableName := tableName qb; columns := columns qb ++ [c];
     counter := counter qb; join := join qb; where_ := where_ qb;
     group := group qb; having := having qb; order := order qb;
     limit := limit qb; offset := offset qb |}.

(** [count({ alias: value })] *)
Definition count (alias value : string) (qb : QueryBuilder) : QueryBuilder :=
  addColumn (aggregate "count" value false (Some alias)) qb.

(** [countDistinct(raw)] *)
Definition countDistinct (raw : string) (qb : QueryBuilder) : QueryBuilder :=
  addColumn (aggregate "count" raw true None) qb.

(** [select(raw)] *)
Definition select (raw : string) (qb : QueryBuilder) : QueryBuilder :=
  addColumn (column raw) qb.

(** [groupByRaw(sql)] *)
Definition groupByRaw (sql : string) (qb : QueryBuilder) : QueryBuilder :=
  {| tableName := tableName qb; columns := columns qb; counter := counter qb;
     join := join qb; where_ := where_ qb; group := group qb ++ [sql];
     having := having qb; order := order qb;
     limit := limit qb; offset := offset qb |}.

(** [toQuery()]: the statement sent to the store is the builder's state at
    that moment. *)
Definition toQuery (qb : QueryBuilder) : QueryBuilder := qb.

End Knex.
Import Knex.

(** The only projection is the count of the rows, and no group, having,
    order, limit, offset or counter clause is left. *)
Definition countOnly (sql : QueryBuilder) : Prop :=
  columns sql = [aggregate "count" "*" false (Some "count")]
  /\ counter sql = [] /\ group sql = [] /\ having sql = [] /\ order sql = []
  /\ limit sql = None /\ offset sql = None.

(** ** Requests, views and the collaborators *)

Record IColumn : Type := {
  hidden : option bool;
  statisticFunc : option StatisticsFunc;
}.

Record ICustomFieldStats : Type := {
  stats_fieldId : string;
  stats_statisticFunc : option StatisticsFunc;
}.

Record IAggregationField : Type := {
  agg_fieldId : string;
  agg_statisticFunc : StatisticsFunc;
}.

Record IGroupItem : Type := {
  fieldId : string;
  ascending : bool;
}.

(** The row of a view, after [nullsToUndefined]. *)
Record ViewRaw : Type := {
  view_id : option string;
  view_columnMeta : option string;
  view_filter : option string;
  view_group : option string;
}.

Section Service.

(** A filter expression and a link-cell reference are passed through to the
    collaborators untouched. *)
Context {IFilter LinkCell : Type}.

Record IWithView : Type := {
  with_viewId : option string;
  customFilter : option IFilter;
  customFieldStats : option (list ICustomFieldStats);
}.

Record IQueryBaseRo : Type := {
  ro_viewId : option string;
  ro_filter : option IFilter;
  filterLinkCellCandidate : option LinkCell;
  filterLinkCellSelected : option LinkCell;
}.

Record IGroupPointsRo : Type := {
  gp_viewId : option string;
  gp_groupBy : option (list IGroupItem);
  gp_filter : option IFilter;
}.

Record IStatisticsData : Type := {
  data_viewId : option string;
  data_filter : option IFilter;
  statisticFields : option (list IAggregationField);
}.

(** A call to a collaborator, as it appears in the trace of a request. *)
Inductive Call : Type :=
| ViewFindFirst (tableId viewId : string)
| FieldFindMany (tableId : string) (fieldIds : option (list string))
| TableMetaFindUniqueOrThrow (tableId : string)
| QueryRawUnsafe (sql : QueryBuilder)
| GetLinkSelectedRecordIds (selected : LinkCell)
| BuildLinkCandidateQuery (tableId : string) (candidate : LinkCell)
| FilterQuery (qb : QueryBuilder) (filter : IFilter)
| SortQuery (qb : QueryBuilder) (sort : list IGroupItem).

(** The collaborators and the configuration of the service. [prisma_*] are
    the metadata store and the raw query execution, [recordService_*] the
    record service, [dbProvider_*] the filter and sort compilers; the
    others are functions of the core package, of the utilities, of Knex
    and of the language, and the ceiling of the configuration. [prisma_field_findMany] answers with the field
    instances ([createFieldInstanceByRaw] applied to each row). *)
Record World : Type := {
  cls_user_id : option string;
  prisma_view_findFirst : string -> string -> Result (option ViewRaw);
  prisma_field_findMany : string -> option (list string) -> Result (list IFieldInstance);
  prisma_tableMeta_findUnique : string -> Result (option string);
  prisma_queryRawUnsafe : QueryBuilder -> Result (list RowObject);
  recordService_getLinkSelectedRecordIds : LinkCell -> Result (list string);
  recordService_buildLinkCandidateQuery :
    QueryBuilder -> string -> LinkCell -> Result QueryBuilder;
  dbProvider_filterQuery :
    QueryBuilder -> gmap string IFieldInstance -> IFilter -> option string -> QueryBuilder;
  dbProvider_sortQuery :
    QueryBuilder -> gmap string IFieldInstance -> list IGroupItem -> QueryBuilder;
  mergeWithDefaultFilter : option string -> option IFilter -> Result (option IFilter);
  parseGroup : option (list IGroupItem) -> option (list IGroupItem);
  JSON_parse : string -> Result (gmap string IColumn);
  thresholdConfig_maxGroupPoints : number;
  knex_wrapIdentifier : string -> string;
  string2Hash : string -> number;
  StringToNumber : string -> number;
}.

(** *** The monad of a request: the calls made so far, and a value or the
    error thrown. *)
Definition Eff (A : Type) : Type := list Call * Result A.

#[global] Instance Eff_ret : MRet Eff := fun A a => ([], Ok a).
#[global] Instance Eff_bind : MBind Eff := fun A B f m =>
  match m with
  | (calls, Ok a) => let '(calls', r) := f a in (calls ++ calls', r)
  | (calls, Err e) => (calls, Err e)
  end.

Definition call {A : Type} (c : Call) (answer : Result A) : Eff A := ([c], answer).
Definition throw {A : Type} (e : Error) : Eff A := ([], Err e).
Definition lift {A : Type} (r : Result A) : Eff A := ([], r).
Definition trace {A : Type} (m : Eff A) : list Call := m.1.
Definition outcome {A : Type} (m : Eff A) : Result A := m.2.

(** The statements executed on the store during a request, in order. *)
Definition executions (calls : list Call) : list QueryBuilder :=
  omap (fun c => match c with QueryRawUnsafe sql => Some sql | _ => None end) calls.

(** The calls that build or run a query: the filter and sort compilers,
    the link-candidate narrowing and the execution. *)
Definition isQueryCall (c : Call) : bool :=
  match c with
  | QueryRawUnsafe _ | FilterQuery _ _ | SortQuery _ _
  | BuildLinkCandidateQuery _ _ => true
  | _ => false
  end.

Definition isSortQuery (c : Call) : bool :=
  match c with
  | SortQuery _ _ => true
  | _ => false
  end.

(** *** The methods of the service *)

Variable w : World.

(** [findUniqueOrThrow]: a missing row is an error. *)
Definition findUniqueOrThrow (found : Result (option string)) : Result string :=
  match found with
  | Ok (Some dbTableName) => Ok dbTableName
  | Ok None => Err NotFound
  | Err e => Err e
  end.

Definition getDbTableName (tableId : string) : Eff string :=
  call (TableMetaFindUniqueOrThrow tableId)
       (findUniqueOrThrow (prisma_tableMeta_findUnique w tableId)).

Definition findView (tableId : string) (withView : option IWithView)
    : Eff (option ViewRaw) :=
  match withView ≫= with_viewId with
  | None => mret None
  | Some viewId =>
    if negb (truthy (Some viewId)) then mret None
    else call (ViewFindFirst tableId viewId) (prisma_view_findFirst w tableId viewId)
  end.

Definition filterFieldInstances (fieldInstances : list IFieldInstance)
    (withView : option IWithView) (withFieldIds : option (list string))
    : list IFieldInstance :=
  let targetFieldIds :=
    match withView ≫= customFieldStats with
    | Some stats => Some (map stats_fieldId stats)
    | None => withFieldIds
    end in
  match targetFieldIds with
  | Some (first :: others) =>
    filter (fun instance => id instance ∈ first :: others) fieldInstances
  | _ => fieldInstances
  end.

Definition getStatisticFields (fieldInstances : list IFieldInstance)
    (columnMeta : option (gmap string IColumn))
    (customFieldStats : option (list ICustomFieldStats))
    : option (list IAggregationField) :=
  let customFieldStatsGrouped (key : string) : option (list ICustomFieldStats) :=
    match filter (fun item => stats_fieldId item = key) (default [] customFieldStats) with
    | [] => None
    | items => Some items
    end in
  fold_left (fun (calculatedStatisticFields : option (list IAggregationField))
                 (fieldInstance : IFieldInstance) =>
    let fieldId := id fieldInstance in
    let viewColumnMeta : option IColumn :=
      match columnMeta with
      | Some meta => meta !! fieldId
      | None => None
      end in
    let customFieldStats := customFieldStatsGrouped fieldId in
    if bool_decide (is_Some viewColumnMeta) || bool_decide (is_Some customFieldStats) then
      let hidden : option bool :=
        match viewColumnMeta with
        | Some meta => hidden meta
        | None => None
        end in
      let statisticFunc : option StatisticsFunc :=
        match viewColumnMeta with
        | Some meta => statisticFunc meta
        | None => None
        end in
      let statisticFuncList : option (list StatisticsFunc) :=
        match customFieldStats with
        | Some items => Some (omap stats_statisticFunc items)
        | None => None
        end in
      let funcList : option (list StatisticsFunc) :=
        match statisticFuncList, statisticFunc with
        | Some (f :: fs), _ => Some (f :: fs)
        | _, Some f => Some [f]
        | _, None => None
        end in
      match funcList with
      | Some (f :: fs) =>
        if bool_decide (hidden = Some true) then calculatedStatisticFields
        else Some (default [] calculatedStatisticFields ++
                   map (fun item => {| agg_fieldId := fieldId; agg_statisticFunc := item |})
                       (f :: fs))
      | _ => calculatedStatisticFields
      end
    else calculatedStatisticFields) fieldInstances None.

Definition buildStatisticsData (filteredFieldInstances : list IFieldInstance)
    (viewRaw : option ViewRaw) (withView : option IWithView)
    : Result IStatisticsData :=
  filter ←
    (if truthy (viewRaw ≫= view_filter) || bool_decide (is_Some (withView ≫= customFilter))
     then mergeWithDefaultFilter w (viewRaw ≫= view_filter) (withView ≫= customFilter)
     else Ok None);
  statisticFields ←
    (if truthy (viewRaw ≫= view_id) || bool_decide (is_Some (withView ≫= customFieldStats))
     then
       columnMeta ←
         (match viewRaw ≫= view_columnMeta with
          | Some text =>
            if truthy (Some text) then meta ← JSON_parse w text; Ok (Some meta)
            else Ok None
          | None => Ok None
          end);
       Ok (getStatisticFields filteredFieldInstances columnMeta
                              (withView ≫= customFieldStats))
     else Ok None);
  Ok {| data_viewId := viewRaw ≫= view_id;
        data_filter := filter;
        statisticFields := statisticFields |}.

(** The [reduce] of [getFieldsData]: every field is stored under its id,
    then under its name. *)
Definition fieldInstanceMapOf (fieldInstances : list IFieldInstance)
    : gmap string IFieldInstance :=
  fold_left (fun map field => <[name field := field]> (<[id field := field]> map))
            fieldInstances ∅.

Definition getFieldsData (tableId : string) (fieldIds : option (list string))
    : Eff (list IFieldInstance * gmap string IFieldInstance) :=
  fieldInstances ← call (FieldFindMany tableId fieldIds)
                        (prisma_field_findMany w tableId fieldIds);
  mret (fieldInstances, fieldInstanceMapOf fieldInstances).

Definition fetchStatisticsParams (tableId : string) (withView : option IWithView)
    (withFieldIds : option (list string))
    : Eff (IStatisticsData * gmap string IFieldInstance) :=
  viewRaw ← findView tableId withView;
  '(fieldInstances, fieldInstanceMap) ← getFieldsData tableId None;
  let filteredFieldInstances :=
    filterFieldInstances fieldInstances withView withFieldIds in
  statisticsData ← lift (buildStatisticsData filteredFieldInstances viewRaw withView);
  mret (statisticsData, fieldInstanceMap).

Definition getRowCount (queryBuilder : QueryBuilder) : Eff (list RowObject) :=
  let queryBuilder :=
    clear "offset" (clear "limit" (clearOrder (clearHaving (clearGroup
      (clearCounters (clearSelect queryBuilder)))))) in
  let rowCountSql := count "count" "*" queryBuilder in
  call (QueryRawUnsafe (toQuery rowCountSql))
       (prisma_queryRawUnsafe w (toQuery rowCountSql)).

Definition handleRowCount (tableId dbTableName : string)
    (fieldInstanceMap : gmap string IFieldInstance) (filter : option IFilter)
    (filterLinkCellCandidate : option LinkCell) (withUserId : option string)
    : Eff (list RowObject) :=
  let queryBuilder := knex dbTableName in
  queryBuilder ←
    (match filter with
     | Some filter =>
       call (FilterQuery queryBuilder filter)
            (Ok (dbProvider_filterQuery w queryBuilder fieldInstanceMap filter withUserId))
     | None => mret queryBuilder
     end);
  queryBuilder ←
    (match filterLinkCellCandidate with
     | Some candidate =>
       call (BuildLinkCandidateQuery tableId candidate)
            (recordService_buildLinkCandidateQuery w queryBuilder tableId candidate)
     | None => mret queryBuilder
     end);
  getRowCount queryBuilder.

(** [Number(rawRowCountData[0]?.count ?? 0)] *)
Definition rowCountOf (rawRowCountData : list RowObject) : number :=
  match rawRowCountData with
  | [] => Num 0
  | first :: _ =>
    match get first "count" with
    | JUndefined | JNull => Num 0
    | count => Number_ (StringToNumber w) count
    end
  end.

Definition performRowCount (tableId : string) (queryRo : IQueryBaseRo) : Eff number :=
  let currentUserId := cls_user_id w in
  '(statisticsData, fieldInstanceMap) ←
    fetchStatisticsParams tableId
      (Some {| with_viewId := ro_viewId queryRo;
               customFilter := ro_filter queryRo;
               customFieldStats := None |})
      None;
  dbTableName ← getDbTableName tableId;
  let filter := data_filter statisticsData in
  match filterLinkCellSelected queryRo with
  | Some selected =>
    ids ← call (GetLinkSelectedRecordIds selected)
               (recordService_getLinkSelectedRecordIds w selected);
    mret (Num (Z.of_nat (length ids)))
  | None =>
    rawRowCountData ←
      handleRowCount tableId dbTableName fieldInstanceMap filter
                     (filterLinkCellCandidate queryRo) currentUserId;
    mret (rowCountOf rawRowCountData)
  end.

(** The column expression of a group field: a JSON column is cast to text.
    [getGroupPoints] and [checkGroupingOverLimit] both compute it. *)
Definition columnOf (field : IFieldInstance) : string :=
  if is_Json (dbFieldType field)
  then "CAST(" +:+ knex_wrapIdentifier w (dbFieldName field) +:+ " as text)"
  else knex_wrapIdentifier w (dbFieldName field).

Definition checkGroupingOverLimit (fieldIds : list string)
    (fieldInstanceMap : gmap string IFieldInstance) (queryBuilder : QueryBuilder)
    : Eff bool :=
  let queryBuilder :=
    fold_left (fun queryBuilder fieldId =>
      match fieldInstanceMap !! fieldId with
      | None => queryBuilder
      | Some field => countDistinct (columnOf field) queryBuilder
      end) fieldIds queryBuilder in
  distinctResult ← call (QueryRawUnsafe (toQuery queryBuilder))
                        (prisma_queryRawUnsafe w (toQuery queryBuilder));
  match distinctResult with
  | [] => throw TypeError
  | first :: _ =>
    let distinctCount := Number_ (StringToNumber w) (get first "count") in
    mret (number_gt distinctCount (thresholdConfig_maxGroupPoints w))
  end.

Definition groupingLimitMessage : string :=
  "Grouping results exceed limit, please adjust grouping conditions to reduce the number of groups.".

Definition getGroupPoints (tableId : string) (query : option IGroupPointsRo)
    : Eff (option (list IGroupPoint)) :=
  let viewId := query ≫= gp_viewId in
  let extraGroupBy := query ≫= gp_groupBy in
  let filter := query ≫= gp_filter in
  if negb (truthy viewId) then mret None else
  let groupBy := parseGroup w extraGroupBy in
  match groupBy with
  | None | Some [] => mret None
  | Some groupBy =>
    viewRaw ← findView tableId
      (Some {| with_viewId := viewId; customFilter := None; customFieldStats := None |});
    '(_, fieldInstanceMap) ← getFieldsData tableId None;
    dbTableName ← getDbTableName tableId;
    let filterStr := viewRaw ≫= view_filter in
    mergedFilter ← lift (mergeWithDefaultFilter w filterStr filter);
    let groupFieldIds := map fieldId groupBy in
    let queryBuilder := knex dbTableName in
    let distinctQueryBuilder := knex dbTableName in
    '(queryBuilder, distinctQueryBuilder) ←
      (match mergedFilter with
       | Some mergedFilter =>
         queryBuilder ←
           call (FilterQuery queryBuilder mergedFilter)
                (Ok (dbProvider_filterQuery w queryBuilder fieldInstanceMap
                                            mergedFilter None));
         distinctQueryBuilder ←
           call (FilterQuery distinctQueryBuilder mergedFilter)
                (Ok (dbProvider_filterQuery w distinctQueryBuilder fieldInstanceMap
                                            mergedFilter None));
         mret (queryBuilder, distinctQueryBuilder)
       | None => mret (queryBuilder, distinctQueryBuilder)
       end);
    isGroupingOverLimit ←
      checkGroupingOverLimit groupFieldIds fieldInstanceMap distinctQueryBuilder;
    if isGroupingOverLimit : bool then throw (PayloadTooLarge groupingLimitMessage) else
    queryBuilder ←
      call (SortQuery queryBuilder groupBy)
           (Ok (dbProvider_sortQuery w queryBuilder fieldInstanceMap groupBy));
    let queryBuilder := count "__c" "*" queryBuilder in
    let queryBuilder :=
      fold_left (fun queryBuilder fieldId =>
        match fieldInstanceMap !! fieldId with
        | None => queryBuilder
        | Some field => groupByRaw (columnOf field) (select (columnOf field) queryBuilder)
        end) groupFieldIds queryBuilder in
    let groupSql := toQuery queryBuilder in
    result ← call (QueryRawUnsafe groupSql) (prisma_queryRawUnsafe w groupSql);
    let groupFields := map (fun fieldId => fieldInstanceMap !! fieldId) groupFieldIds in
    points ← lift (groupDbCollection2GroupPoints (string2Hash w) (StringToNumber w)
                                                 result groupFields);
    mret (Some points)
  end.

(** The statement of the limit pre-check for a group-by: over the filtered
    table, one distinct count per group field that the field map knows. *)
Definition distinctQuery (dbTableName : string)
    (fieldInstanceMap : gmap string IFieldInstance) (mergedFilter : option IFilter)
    (groupFieldIds : list string) : QueryBuilder :=
  fold_left (fun queryBuilder fieldId =>
    match fieldInstanceMap !! fieldId with
    | None => queryBuilder
    | Some field => countDistinct (columnOf field) queryBuilder
    end) groupFieldIds
    (match mergedFilter with
     | Some mergedFilter =>
       dbProvider_filterQuery w (knex dbTableName) fieldInstanceMap mergedFilter None
     | None => knex dbTableName
     end).

End Service.

(** ** The month difference of the date library, on calendar dates *)

Module Calendar.
#[local] Open Scope Z_scope.

Record Civil : Type := {
  year : Z;
  month : Z;
  day : Z;
}.

Definition digit (c : ascii) : option Z :=
  let n := Z.of_nat (nat_of_ascii c) in
  if (48 <=? n) && (n <=? 57) then Some (n - 48) else None.

Fixpoint digits (s : string) (acc : Z) : option Z :=
  match s with
  | EmptyString => Some acc
  | String c rest =>
    match digit c with
    | Some d => digits rest (10 * acc + d)
    | None => None
    end
  end.

Definition numeral (s : string) : option Z :=
  if bool_decide (s = "") then None else digits s 0.

Definition isLeap (y : Z) : bool :=
  ((y mod 4 =? 0) && negb (y mod 100 =? 0)) || (y mod 400 =? 0).

(** Months are counted from 0, as the library does. *)
Definition daysInMonth (y m : Z) : Z :=
  if m =? 1 then (if isLeap y then 29 else 28)
  else if (m =? 3) || (m =? 5) || (m =? 8) || (m =? 10) then 30
  else 31.

Definition parse (s : string) : option Civil :=
  match split "-" s with
  | [y; m; d] =>
    match numeral y, numeral m, numeral d with
    | Some y, Some m, Some d =>
      if (1 <=? m) && (m <=? 12) && (1 <=? d) && (d <=? daysInMonth y (m - 1))
      then Some {| year := y; month := m - 1; day := d |}
      else None
    | _, _, _ => None
    end
  | _ => None
  end.

(** Days since 1970-01-01. *)
Definition dayNumber (c : Civil) : Z :=
  let m := month c + 1 in
  let y := if m <=? 2 then year c - 1 else year c in
  let era := y / 400 in
  let yoe := y - era * 400 in
  let doy := (153 * (if 2 <? m then m - 3 else m + 9) + 2) / 5 + day c - 1 in
  let doe := yoe * 365 + yoe / 4 - yoe / 100 + doy in
  era * 146097 + doe - 719468.

(** [add(n, 'month')]: the day is brought back into the month reached. *)
Definition addMonths (c : Civil) (n : Z) : Civil :=
  let total := year c * 12 + month c + n in
  let y := total / 12 in
  let m := total mod 12 in
  {| year := y; month := m; day := Z.min (day c) (daysInMonth y m) |}.

(** The difference in months as a fraction, numerator and denominator, for
    [day a >= day b]. *)
Definition monthDiffFrom (a b : Civil) : Z * Z :=
  let wholeMonthDiff := (year b - year a) * 12 + (month b - month a) in
  let anchor := dayNumber (addMonths a wholeMonthDiff) in
  let c := dayNumber b - anchor <? 0 in
  let anchor2 := dayNumber (addMonths a (wholeMonthDiff + (if c then -1 else 1))) in
  let span := if c then anchor - anchor2 else anchor2 - anchor in
  (- (wholeMonthDiff * span + (dayNumber b - anchor)), span).

Definition monthDiff (a b : Civil) : Z :=
  if day a <? day b
  then let '(n, d) := monthDiffFrom b a in - Z.quot n d
  else let '(n, d) := monthDiffFrom a b in Z.quot n d.

(** Modelled from the spec: [dayjs(max).diff(min, 'month')], the integer
    month-difference between max and min. The date library is not part of
    the repository; the model reads dates written [YYYY-MM-DD] and follows
    the rule of the library: the whole months from [min] to [max], with the
    part of a month that is left dropped. *)
Definition diff_month (maxTime minTime : string) : number :=
  match parse maxTime, parse minTime with
  | Some a, Some b => Num (monthDiff a b)
  | _, _ => NaN
  end.

End Calendar.

(** A string that holds no [c]. *)
Fixpoint without (c : ascii) (s : string) : bool :=
  match s with
  | EmptyString => true
  | String c' rest => negb (bool_decide (c' = c)) && without c rest
  end.

(** ** Reference descriptions of the decoded sequence *)

Section Runs.

Variable string2Hash : string -> number.
Variable StringToNumber : string -> number.

(** The maximal runs of consecutive rows that hold the same value of the
    field [f], in order. *)
Fixpoint runs (f : IFieldInstance) (rows : list RowObject) : list (list RowObject) :=
  match rows with
  | [] => []
  | row :: rest =>
    match runs f rest with
    | (next :: run) :: others =>
      if strict_equals (fieldValueOf row f) (fieldValueOf next f)
      then (row :: next :: run) :: others
      else [row] :: (next :: run) :: others
    | _ => [[row]]
    end
  end.

Definition rowMarker (item : RowObject) : IGroupPoint :=
  Row (Number_ StringToNumber (get item "__c")).

(** What a run contributes: the header of its value at depth 0, then the
    row marker of each of its rows. *)
Definition renderRun (f : IFieldInstance) (run : list RowObject) : list IGroupPoint :=
  match run with
  | [] => []
  | row :: _ => headerOf string2Hash f 0 (fieldValueOf row f) :: map rowMarker run
  end.

(** What the rows add to the sequence when [slot] is the value last seen at
    depth 0: the left-to-right reading of the loop for one group field. *)
Fixpoint emitted1 (f : IFieldInstance) (slot : LastSeen) (rows : list RowObject)
    : list IGroupPoint :=
  match rows with
  | [] => []
  | row :: rest =>
    if same_as slot (fieldValueOf row f)
    then rowMarker row :: emitted1 f slot rest
    else headerOf string2Hash f 0%nat (fieldValueOf row f) :: rowMarker row
         :: emitted1 f (Seen (fieldValueOf row f)) rest
  end.

(** The state after one row, for two group fields: the depth-0 step, the
    depth-1 step, then the row marker. *)
Definition step0 (f0 : IFieldInstance) (item : RowObject) (st : DecodeState)
    : DecodeState :=
  if same_as (firstDbFieldValue st) (fieldValueOf item f0) then st
  else push (headerOf string2Hash f0 0%nat (fieldValueOf item f0))
            {| firstDbFieldValue := Seen (fieldValueOf item f0);
               secondDbFieldValue := FreshSymbol;
               groupPoints := groupPoints st |}.

Definition step1 (f1 : IFieldInstance) (item : RowObject) (st : DecodeState)
    : DecodeState :=
  if same_as (secondDbFieldValue st) (fieldValueOf item f1) then st
  else push (headerOf string2Hash f1 1%nat (fieldValueOf item f1))
            {| firstDbFieldValue := firstDbFieldValue st;
               secondDbFieldValue := Seen (fieldValueOf item f1);
               groupPoints := groupPoints st |}.

Definition step2 (f0 f1 : IFieldInstance) (st : DecodeState) (item : RowObject)
    : DecodeState :=
  push (rowMarker item) (step1 f1 item (step0 f0 item st)).

(** No two neighbours hold the same value of [f]: what a grouped query
    answers, one row per distinct value. *)
Fixpoint neighboursDiffer (f : IFieldInstance) (rows : list RowObject) : bool :=
  match rows with
  | row :: ((next :: _) as rest) =>
    negb (strict_equals (fieldValueOf row f) (fieldValueOf next f))
    && neighboursDiffer f rest
  | _ => true
  end.

End Runs.

(** [Header _ d _] *)
Definition isHeaderAt (d : nat) (p : IGroupPoint) : bool :=
  match p with
  | Header _ depth _ => Nat.eqb depth d
  | Row _ => false
  end.

(** The writes that build the field map, in order: for every field its id,
    then its name. *)
Definition mapWrites (fieldInstances : list IFieldInstance)
    : list (string * IFieldInstance) :=
  flat_map (fun field => [(id field, field); (name field, field)]) fieldInstances.

(** [Row _] *)
Definition isRow (p : IGroupPoint) : bool :=
  match p with
  | Header _ _ _ => false
  | Row _ => true
  end.

(** A Header of [p] lies at a depth below [n]. *)
Definition depthBelow (n : nat) (p : IGroupPoint) : Prop :=
  match p with
  | Header _ depth _ => (depth < n)%nat
  | Row _ => True
  end.

(** ** Reference description of the statistic fields *)

(** The functions the caller asks for a field, in the order of the request. *)
Definition customFunctions (customFieldStats : option (list ICustomFieldStats))
    (fieldId : string) : list StatisticsFunc :=
  omap stats_statisticFunc
       (filter (fun item => stats_fieldId item = fieldId) (default [] customFieldStats)).

(** The column of a field in the view, when the view has column metadata. *)
Definition columnOfView (columnMeta : option (gmap string IColumn)) (fieldId : string)
    : option IColumn :=
  match columnMeta with
  | Some meta => meta !! fieldId
  | None => None
  end.

(** The statistic fields of one field: none when the view hides it;
    otherwise the functions of the caller, or without any the default
    function of the view. *)
Definition fieldStatistics (columnMeta : option (gmap string IColumn))
    (customFieldStats : option (list ICustomFieldStats)) (field : IFieldInstance)
    : list IAggregationField :=
  let funcs :=
    match customFunctions customFieldStats (id field) with
    | [] =>
      match columnOfView columnMeta (id field) ≫= statisticFunc with
      | Some f => [f]
      | None => []
      end
    | fs => fs
    end in
  if bool_decide (columnOfView columnMeta (id field) ≫= hidden = Some true) then []
  else map (fun item => {| agg_fieldId := id field; agg_statisticFunc := item |}) funcs.

(** ** Fixtures: text fields and grouped rows *)

Definition textField (fieldId fieldName : string) : IFieldInstance :=
  {| id := fieldId; name := fieldName; dbFieldName := fieldName;
     dbFieldType := OtherDbFieldType "TEXT";
     convertDBValue2CellValue := fun value => value |}.

Definition categoryField : IFieldInstance := textField "fldCategory" "category".
Definition statusField : IFieldInstance := textField "fldStatus" "status".
Definition ownerField : IFieldInstance := textField "fldOwner" "owner".

(** Two fields that collide: the name of the first is the id of the second. *)
Definition fieldNamedAsId : IFieldInstance := textField "fldB" "fldA".
Definition fieldWithId : IFieldInstance := textField "fldA" "Title".

Definition lengthHash (s : string) : number := Num (Z.of_nat (String.length s)).
Definition noNumber (s : string) : number := NaN.

Definition groupedRow1 (status : string) (c : Z) : RowObject :=
  <["__c" := JBigInt c]> {[ "status" := JString status ]}.

Definition groupedRow2 (category status : string) (c : Z) : RowObject :=
  <["category" := JString category]> (groupedRow1 status c).

Definition groupedRow3 (category status owner : string) (c : Z) : RowObject :=
  <["owner" := JString owner]> (groupedRow2 category status c).

(** ** Fixtures: a world with one dataset *)

Definition dquote : string := String (ascii_of_nat 34) EmptyString.

Definition countRowOf (c : Z) : RowObject := {[ "count" := JBigInt c ]}.

Definition demoView : ViewRaw :=
  {| view_id := Some "viw1"; view_columnMeta := None;
     view_filter := None; view_group := None |}.

(** One dataset [tbl1] with the fields category and status; filters and
    link-cell references are strings; the store answers every statement
    with one row whose [count] is 5001, and the ceiling is 5000. *)
Definition demoWorld : @World string string :=
  {| cls_user_id := Some "usr1";
     prisma_view_findFirst := fun _ _ => Ok (Some demoView);
     prisma_field_findMany := fun _ _ => Ok [categoryField; statusField];
     prisma_tableMeta_findUnique := fun tableId =>
       Ok (if bool_decide (tableId = "tbl1") then Some "tbl1_data" else None);
     prisma_queryRawUnsafe := fun _ => Ok [countRowOf 5001];
     recordService_getLinkSelectedRecordIds := fun _ =>
       Ok ["rec1"; "rec2"; "rec3"; "rec4"; "rec5"];
     recordService_buildLinkCandidateQuery := fun qb _ _ => Ok qb;
     dbProvider_filterQuery := fun qb _ filter _ =>
       {| tableName := tableName qb; columns := columns qb; counter := counter qb;
          join := join qb; where_ := where_ qb ++ [filter]; group := group qb;
          having := having qb; order := order qb;
          limit := limit qb; offset := offset qb |};
     dbProvider_sortQuery := fun qb _ sort =>
       {| tableName := tableName qb; columns := columns qb; counter := counter qb;
          join := join qb; where_ := where_ qb; group := group qb;
          having := having qb; order := order qb ++ map fieldId sort;
          limit := limit qb; offset := offset qb |};
     mergeWithDefaultFilter := fun _ queryFilter => Ok queryFilter;
     parseGroup := fun group => group;
     JSON_parse := fun _ => Ok ∅;
     thresholdConfig_maxGroupPoints := Num 5000;
     knex_wrapIdentifier := fun s => dquote +:+ s +:+ dquote;
     string2Hash := lengthHash;
     StringToNumber := noNumber |}.

Definition demoGroupQuery : @IGroupPointsRo string :=
  {| gp_viewId := Some "viw1";
     gp_groupBy := Some [{| fieldId := "fldCategory"; ascending := true |};
                         {| fieldId := "fldStatus"; ascending := true |}];
     gp_filter := None |}.

Definition demoSelectedQuery : @IQueryBaseRo string string :=
  {| ro_viewId := Some "viw1"; ro_filter := None;
     filterLinkCellCandidate := None;
     filterLinkCellSelected := Some "fldLink" |}.

(** ** Further reference descriptions and fixtures *)

Section ServiceStatements.

Context {IFilter LinkCell : Type}.
Variable w : @World IFilter LinkCell.

(** The builder of a request after the filter stage: the storage table,
    with the merged filter compiled into it when there is one. *)
Definition filteredTable (dbTableName : string)
    (fieldInstanceMap : gmap string IFieldInstance) (mergedFilter : option IFilter)
    : QueryBuilder :=
  match mergedFilter with
  | Some mergedFilter =>
    dbProvider_filterQuery w (knex dbTableName) fieldInstanceMap mergedFilter None
  | None => knex dbTableName
  end.

(** The column expressions of the group fields that the field map knows, in
    the order of the group-by list. *)
Definition groupColumns (fieldInstanceMap : gmap string IFieldInstance)
    (groupFieldIds : list string) : list string :=
  omap (fun fieldId => columnOf w <$> fieldInstanceMap !! fieldId) groupFieldIds.

(** The grouped statement of a request: the filtered table, sorted by the
    group-by list, with the count of the rows as [__c] and, for every group
    field that the field map knows, its column selected and grouped by. *)
Definition groupedQuery (dbTableName : string)
    (fieldInstanceMap : gmap string IFieldInstance) (mergedFilter : option IFilter)
    (groupBy : list IGroupItem) : QueryBuilder :=
  fold_left (fun queryBuilder fieldId =>
    match fieldInstanceMap !! fieldId with
    | None => queryBuilder
    | Some field => groupByRaw (columnOf w field) (select (columnOf w field) queryBuilder)
    end) (map fieldId groupBy)
    (count "__c" "*"
       (dbProvider_sortQuery w (filteredTable dbTableName fieldInstanceMap mergedFilter)
                             fieldInstanceMap groupBy)).

(** The calls of a grouping request up to the pre-check. *)
Definition groupingPrefix (tableId viewId dbTableName : string)
    (fieldInstances : list IFieldInstance) (mergedFilter : option IFilter)
    (groupBy : list IGroupItem) : list (@Call IFilter LinkCell) :=
  [ViewFindFirst tableId viewId; FieldFindMany tableId None;
   TableMetaFindUniqueOrThrow tableId]
  ++ match mergedFilter with
     | Some filter => [FilterQuery (knex dbTableName) filter;
                       FilterQuery (knex dbTableName) filter]
     | None => []
     end
  ++ [QueryRawUnsafe
        (distinctQuery w dbTableName (fieldInstanceMapOf fieldInstances) mergedFilter
                       (map fieldId groupBy))].

End ServiceStatements.

(** The world [demoWorld] with another view, another parser of column
    metadata, another ceiling and other answers of the store. *)
Definition demoWorldWith (view : option ViewRaw)
    (parse : string -> Result (gmap string IColumn)) (ceiling : number)
    (answer : QueryBuilder -> Result (list RowObject)) : @World string string :=
  {| cls_user_id := cls_user_id demoWorld;
     prisma_view_findFirst := fun _ _ => Ok view;
     prisma_field_findMany := prisma_field_findMany demoWorld;
     prisma_tableMeta_findUnique := prisma_tableMeta_findUnique demoWorld;
     prisma_queryRawUnsafe := answer;
     recordService_getLinkSelectedRecordIds :=
       recordService_getLinkSelectedRecordIds demoWorld;
     recordService_buildLinkCandidateQuery :=
       recordService_buildLinkCandidateQuery demoWorld;
     dbProvider_filterQuery := dbProvider_filterQuery demoWorld;
     dbProvider_sortQuery := dbProvider_sortQuery demoWorld;
     mergeWithDefaultFilter := mergeWithDefaultFilter demoWorld;
     parseGroup := parseGroup demoWorld;
     JSON_parse := parse;
     thresholdConfig_maxGroupPoints := ceiling;
     knex_wrapIdentifier := knex_wrapIdentifier demoWorld;
     string2Hash := string2Hash demoWorld;
     StringToNumber := StringToNumber demoWorld |}.

Definition viewWithColumnMeta : ViewRaw :=
  {| view_id := Some "viw1"; view_columnMeta := Some "{";
     view_filter := None; view_group := None |}.

Definition noParse (text : string) : Result (gmap string IColumn) :=
  Err (StoreFailure "Unexpected end of JSON input").

Definition demoViewQuery : @IQueryBaseRo string string :=
  {| ro_viewId := Some "viw1"; ro_filter := None;
     filterLinkCellCandidate := None; filterLinkCellSelected := None |}.

(** The store of a grouping request: the pre-check, which counts distinct
    values, is answered with 2; the grouped statement with the rows
    (X,A,2), (X,B,1), (Y,A,1). *)
Definition groupingAnswer (sql : QueryBuilder) : Result (list RowObject) :=
  match columns sql with
  | aggregate _ _ true _ :: _ => Ok [countRowOf 2]
  | _ => Ok [groupedRow2 "X" "A" 2; groupedRow2 "X" "B" 1; groupedRow2 "Y" "A" 1]
  end.

Definition groupingWorld : @World string string :=
  demoWorldWith (Some demoView) (fun _ => Ok ∅) (Num 5000) groupingAnswer.

(** ** Aggregations

    [performAggregation] and [handleAggregation]. The statement is built
    with [knex.with]: a builder that carries a named sub-statement; it is
    handed to the aggregation compiler of the database provider, which
    answers with the text that is executed. *)

(** A builder made by [knex.with(alias, callback).from(alias)]: the
    statement that the callback builds, under its alias, and the builder of
    the main statement. Knex runs the callback when it compiles the
    statement. *)
Record WithBuilder : Type := {
  alias : string;
  withStatement : QueryBuilder;
  mainStatement : QueryBuilder;
}.

(** [from(tableName)] *)
Definition from_ (tableName : string) (qb : QueryBuilder) : QueryBuilder :=
  {| Knex.tableName := tableName; columns := columns qb; counter := counter qb;
     join := join qb; where_ := where_ qb; group := group qb;
     having := having qb; order := order qb;
     limit := limit qb; offset := offset qb |}.

(** The builder that a callback of [with] receives: no table yet. *)
Definition freshBuilder : QueryBuilder := knex "".

(** One entry of the result of [performAggregation]: [total] is null, or
    the decoded value with the name of the function. *)
Record IRawAggregation : Type := {
  raw_fieldId : string;
  total : option (JsValue * string);
}.

Definition underscore : ascii := "_".

Section Aggregation.

Context {IFilter LinkCell : Type}.

Inductive AggregationCall : Type :=
| Shared (c : @Call IFilter LinkCell)
| AggregationQuery (queryBuilder : WithBuilder) (tableAlias : string)
    (statisticFields : list IAggregationField)
| QueryRawUnsafeSql (sql : string).

(** The collaborators of an aggregation request: those of [World], the
    aggregation compiler with its [toQuerySql()], the execution of the text
    it gives, and of the language and its libraries [Object.entries] (the
    columns of a row in their order), the month difference of the date
    library and the member of [StatisticsFunc] that a string is. *)
Record AggregationWorld : Type := {
  base : @World IFilter LinkCell;
  dbProvider_aggregationQuery :
    WithBuilder -> string -> gmap string IFieldInstance -> list IAggregationField -> string;
  prisma_queryRawUnsafe_sql : string -> Result (list RowObject);
  Object_entries : RowObject -> list (string * JsValue);
  statisticsFuncOf : string -> StatisticsFunc;
  dayjs_diff_month : string -> string -> number;
}.

Definition AggEff (A : Type) : Type := list AggregationCall * Result A.

#[global] Instance AggEff_ret : MRet AggEff := fun A a => ([], Ok a).
#[global] Instance AggEff_bind : MBind AggEff := fun A B f m =>
  match m with
  | (calls, Ok a) => let '(calls', r) := f a in (calls ++ calls', r)
  | (calls, Err e) => (calls, Err e)
  end.

(** A method of the service that both kinds of request share. *)
Definition shared {A : Type} (m : @Eff IFilter LinkCell A) : AggEff A :=
  (map Shared m.1, m.2).

Definition outcome_of_aggregation {A : Type} (m : AggEff A) : Result A := m.2.

Variable aw : AggregationWorld.

Definition handleAggregation (dbTableName : string)
    (fieldInstanceMap : gmap string IFieldInstance) (filter : option IFilter)
    (statisticFields : option (list IAggregationField)) (withUserId : option string)
    : AggEff (option (list RowObject)) :=
  match statisticFields with
  | None | Some [] => mret None
  | Some statisticFields =>
    let tableAlias := "main_table" in
    let queryBuilder :=
      {| alias := tableAlias;
         withStatement :=
           (let qb := from_ dbTableName (select "*" freshBuilder) in
            match filter with
            | Some filter =>
              dbProvider_filterQuery (base aw) qb fieldInstanceMap filter withUserId
            | None => qb
            end);
         mainStatement := from_ tableAlias freshBuilder |} in
    let aggSql :=
      dbProvider_aggregationQuery aw queryBuilder tableAlias fieldInstanceMap
                                  statisticFields in
    rows ← ([AggregationQuery queryBuilder tableAlias statisticFields;
             QueryRawUnsafeSql aggSql],
            prisma_queryRawUnsafe_sql aw aggSql);
    mret (Some rows)
  end.

(** The body of the loop over the entries of the result row. *)
Definition aggregationOf (entry : string * JsValue) : option IRawAggregation :=
  let '(key, value) := entry in
  let pieces := split underscore key in
  let fieldId := pieces !! 0%nat in
  let aggFunc := pieces !! 1%nat in
  let convertValue :=
    formatConvertValue (dayjs_diff_month aw) value
      (if truthy aggFunc then statisticsFuncOf aw <$> aggFunc else None) in
  match fieldId with
  | Some fieldId =>
    if truthy (Some fieldId)
    then Some {| raw_fieldId := fieldId;
                 total := match aggFunc with
                          | Some aggFunc =>
                            if truthy (Some aggFunc) then Some (convertValue, aggFunc)
                            else None
                          | None => None
                          end |}
    else None
  | None => None
  end.

Definition performAggregation (tableId : string) (withFieldIds : option (list string))
    (withView : option (@IWithView IFilter)) : AggEff (list IRawAggregation) :=
  let currentUserId := cls_user_id (base aw) in
  '(statisticsData, fieldInstanceMap) ←
    shared (fetchStatisticsParams (base aw) tableId withView withFieldIds);
  dbTableName ← shared (getDbTableName (base aw) tableId);
  let filter := data_filter statisticsData in
  let statisticFields := statisticFields statisticsData in
  rawAggregationData ←
    handleAggregation dbTableName fieldInstanceMap filter statisticFields currentUserId;
  let aggregationResult := rawAggregationData ≫= head in
  mret (match aggregationResult with
        | Some aggregationResult => omap aggregationOf (Object_entries aw aggregationResult)
        | None => []
        end).

End Aggregation.

(** ** Fixtures: an aggregation request *)

Definition demoFuncOf (s : string) : StatisticsFunc :=
  if bool_decide (s = "percentFilled") then PercentFilled
  else if bool_decide (s = "dateRangeOfMonths") then DateRangeOfMonths
  else OtherStatisticsFunc s.

(** The world [demoWorld] with an aggregation compiler; the store answers
    with one row that holds no value for the filled percentage of the
    status. *)
Definition demoAggregationWorld : @AggregationWorld string string :=
  {| base := demoWorld;
     dbProvider_aggregationQuery := fun _ _ _ _ => "select";
     prisma_queryRawUnsafe_sql := fun _ =>
       Ok [ ({[ "fldStatus_percentFilled" := JNull ]} : RowObject) ];
     Object_entries := map_to_list;
     statisticsFuncOf := demoFuncOf;
     dayjs_diff_month := Calendar.diff_month |}.

Definition demoStatsView : @IWithView string :=
  {| with_viewId := None; customFilter := None;
     customFieldStats := Some [{| stats_fieldId := "fldStatus";
                                  stats_statisticFunc := Some PercentFilled |}] |}.

(** * Properties *)

(** ** Strict equality *)

Lemma strict_equals_sym (a b : JsValue) : strict_equals a b = strict_equals b a.
Proof.
  destruct a, b; simpl; try reflexivity.
  - destruct b, b0; reflexivity.
  - destruct n, n0; simpl; try reflexivity. apply Z.eqb_sym.
  - apply Z.eqb_sym.
  - apply bool_decide_ext. split; congruence.
Qed.

Lemma strict_equals_eq (a b : JsValue) : strict_equals a b = true -> a = b.
Proof.
  destruct a, b; simpl; try discriminate; intros H.
  - reflexivity.
  - reflexivity.
  - apply Bool.eqb_prop in H. congruence.
  - destruct n, n0; simpl in H; try discriminate.
    apply Z.eqb_eq in H. congruence.
  - apply Z.eqb_eq in H. congruence.
  - apply bool_decide_eq_true in H. congruence.
Qed.

(** A last-seen slot that is equal to [u] compares with any value as [u]
    does. *)
Lemma same_as_Seen_eq (slot : LastSeen) (u v : JsValue) :
  same_as slot u = true -> same_as slot v = strict_equals u v.
Proof.
  destruct slot as [|x]; simpl; [discriminate|].
  intros H. apply strict_equals_eq in H. congruence.
Qed.

(** ** The loops *)

Lemma forEach_app {A St : Type} (callback : St -> A -> nat -> Result St)
    (l1 l2 : list A) (i : nat) (st : St) :
  forEach callback (l1 ++ l2) i st =
  (st' ← forEach callback l1 i st; forEach callback l2 (i + length l1)%nat st').
Proof.
  revert i st. induction l1 as [|x l1 IH]; intros i st; simpl.
  - by rewrite Nat.add_0_r.
  - destruct (callback st x i) as [st'|e]; simpl; [|done].
    rewrite IH. by replace (S i + length l1)%nat with (i + S (length l1))%nat by lia.
Qed.

(** ** Decoding a single-level group-by *)

Section DecodeFacts.

Variable string2Hash : string -> number.
Variable StringToNumber : string -> number.

Abbreviation decode := (groupDbCollection2GroupPoints string2Hash StringToNumber).
Abbreviation header := (headerOf string2Hash).
Abbreviation marker := (rowMarker StringToNumber).
Abbreviation emitted := (emitted1 string2Hash StringToNumber).

Lemma itemCallback_single (f : IFieldInstance) (st : DecodeState) (row : RowObject)
    (i : nat) :
  itemCallback string2Hash StringToNumber [Some f] st row i =
  Ok (if same_as (firstDbFieldValue st) (fieldValueOf row f)
      then push (marker row) st
      else push (marker row)
             (push (header f 0%nat (fieldValueOf row f))
                   {| firstDbFieldValue := Seen (fieldValueOf row f);
                      secondDbFieldValue := FreshSymbol;
                      groupPoints := groupPoints st |})).
Proof.
  unfold itemCallback. cbn [forEach fieldCallback Nat.eqb].
  by destruct (same_as (firstDbFieldValue st) (fieldValueOf row f)).
Qed.

Lemma forEach_single (f : IFieldInstance) (rows : list RowObject) (i : nat)
    (st : DecodeState) :
  exists st',
    forEach (itemCallback string2Hash StringToNumber [Some f]) rows i st = Ok st'
    /\ groupPoints st' = groupPoints st ++ emitted f (firstDbFieldValue st) rows.
Proof.
  revert i st. induction rows as [|row rest IH]; intros i st.
  - exists st. simpl. by rewrite app_nil_r.
  - cbn [forEach emitted1]. rewrite itemCallback_single. cbn [mbind Result_bind].
    destruct (same_as (firstDbFieldValue st) (fieldValueOf row f)) eqn:Hsame.
    + destruct (IH (S i) (push (marker row) st)) as (st' & Hrun & Hpoints).
      exists st'. split; [exact Hrun|].
      rewrite Hpoints. simpl. by rewrite <- app_assoc.
    + match goal with |- context [forEach _ rest (S i) ?s] =>
        destruct (IH (S i) s) as (st' & Hrun & Hpoints) end.
      exists st'. split; [exact Hrun|].
      rewrite Hpoints. simpl. by rewrite <- !app_assoc.
Qed.

Lemma runs_cons_inv (f : IFieldInstance) (row : RowObject) (rest : list RowObject) :
  exists run others, runs f (row :: rest) = (row :: run) :: others.
Proof.
  simpl. destruct (runs f rest) as [|[|next run] others]; eauto.
  destruct (strict_equals _ _); eauto.
Qed.

Lemma runs_step (f : IFieldInstance) (row : RowObject) (rest : list RowObject) :
  runs f (row :: rest) =
  match runs f rest with
  | (next :: run) :: others =>
    if strict_equals (fieldValueOf row f) (fieldValueOf next f)
    then (row :: next :: run) :: others
    else [row] :: (next :: run) :: others
  | _ => [[row]]
  end.
Proof. reflexivity. Qed.

Abbreviation rendered f rows :=
  (flat_map (renderRun string2Hash StringToNumber f) (runs f rows)).

Lemma rendered_cons (f : IFieldInstance) (row : RowObject) (rest : list RowObject) :
  rendered f (row :: rest) =
  header f 0%nat (fieldValueOf row f) :: tail (rendered f (row :: rest)).
Proof. by destruct (runs_cons_inv f row rest) as (run & others & ->). Qed.

(** After [row], from a slot that stands for the value of [row]. *)
Lemma emitted1_after (f : IFieldInstance) (row : RowObject) (rest : list RowObject)
    (slot : LastSeen) :
  (forall slot', emitted f slot' rest =
     match rest with
     | [] => []
     | next :: _ =>
       if same_as slot' (fieldValueOf next f)
       then tail (rendered f rest) else rendered f rest
     end) ->
  (forall v, same_as slot v = strict_equals (fieldValueOf row f) v) ->
  marker row :: emitted f slot rest = tail (rendered f (row :: rest)).
Proof.
  intros IH Hslot. rewrite IH.
  destruct rest as [|next rest']; [done|].
  rewrite Hslot, (runs_step f row).
  destruct (runs_cons_inv f next rest') as (run & others & ->).
  by destruct (strict_equals (fieldValueOf row f) (fieldValueOf next f)).
Qed.

(** From a slot that differs from the first row the rows give their runs;
    from a slot equal to it, the same without the first header. *)
Lemma emitted1_runs (f : IFieldInstance) (rows : list RowObject) (slot : LastSeen) :
  emitted f slot rows =
  match rows with
  | [] => []
  | row :: _ =>
    if same_as slot (fieldValueOf row f)
    then tail (rendered f rows) else rendered f rows
  end.
Proof.
  revert slot. induction rows as [|row rest IH]; intros slot; [done|].
  cbn [emitted1].
  destruct (same_as slot (fieldValueOf row f)) eqn:Hsame.
  - apply emitted1_after; [exact IH|].
    intros v. by apply same_as_Seen_eq.
  - rewrite rendered_cons. f_equal. by apply emitted1_after.
Qed.

Lemma decode_single (f : IFieldInstance) (rows : list RowObject) :
  decode rows [Some f] = Ok (rendered f rows).
Proof.
  unfold groupDbCollection2GroupPoints.
  destruct (forEach_single f rows 0 initialState) as (st & -> & Hpoints).
  cbn [mbind Result_bind]. rewrite Hpoints, emitted1_runs.
  by destruct rows.
Qed.

Lemma runs_neighboursDiffer (f : IFieldInstance) (rows : list RowObject) :
  neighboursDiffer f rows = true -> runs f rows = map (fun row => [row]) rows.
Proof.
  induction rows as [|row rest IH]; [done|].
  destruct rest as [|next rest']; [done|].
  intros H. cbn [neighboursDiffer] in H.
  apply andb_true_iff in H as [Hdiff Hrest]. apply negb_true_iff in Hdiff.
  specialize (IH Hrest).
  rewrite (runs_step f row), IH. cbn [map]. by rewrite Hdiff.
Qed.

(** Every run has a first row, so every run renders exactly one header. *)
Lemma headers_of_rendered (f : IFieldInstance) (rows : list RowObject) :
  length (List.filter (isHeaderAt 0) (rendered f rows)) = length (runs f rows).
Proof.
  assert (Hmarkers : forall run, List.filter (isHeaderAt 0) (map marker run) = []).
  { intros run. induction run as [|row run IH]; [done|exact IH]. }
  assert (Hne : Forall (fun run => run <> []) (runs f rows)).
  { induction rows as [|row rest IH]; [constructor|].
    rewrite runs_step.
    destruct (runs f rest) as [|[|next run] others]; [by repeat constructor..|].
    destruct (strict_equals _ _); [|by constructor].
    inversion IH; subst. by constructor. }
  induction Hne as [|run others Hrun _ IH]; [done|].
  cbn [flat_map]. rewrite List.filter_app, length_app, IH.
  destruct run as [|row run]; [done|].
  cbn [renderRun List.filter isHeaderAt Nat.eqb]. by rewrite Hmarkers.
Qed.

(** C3. For a single-level group-by the decoded sequence is, run by run of
    consecutive rows with the same grouped value, one depth-0 Header followed
    by the Row markers of the run, so there are as many depth-0 Headers as
    runs; over the rows of a grouped query, where neighbours differ, every
    row gives its Header and one Row marker with its count. Status A
    (count 2) then B (count 1) decode to Header A, Row 2, Header B, Row 1. *)
Theorem single_level_one_header_per_run (f : IFieldInstance) (rows : list RowObject) :
  decode rows [Some f] = Ok (rendered f rows)
  /\ length (List.filter (isHeaderAt 0) (rendered f rows)) = length (runs f rows)
  /\ (neighboursDiffer f rows = true ->
      decode rows [Some f] =
      Ok (flat_map (fun row => [header f 0%nat (fieldValueOf row f); marker row]) rows))
  /\ decode [groupedRow1 "A" 2; groupedRow1 "B" 1] [Some statusField] =
     Ok [Header (number_to_string (string2Hash "fldStatus_A")) 0 (JString "A");
         Row (Num 2);
         Header (number_to_string (string2Hash "fldStatus_B")) 0 (JString "B");
         Row (Num 1)].
Proof.
  split; [apply decode_single|].
  split; [apply headers_of_rendered|].
  split; [|reflexivity].
  intros Hdiffer. rewrite decode_single, runs_neighboursDiffer by done.
  f_equal. clear Hdiffer. induction rows as [|row rest IH]; [done|].
  cbn. by rewrite IH.
Qed.

(** ** Decoding a two-level group-by *)

Lemma itemCallback_two (f0 f1 : IFieldInstance) (st : DecodeState) (row : RowObject)
    (i : nat) :
  itemCallback string2Hash StringToNumber [Some f0; Some f1] st row i =
  Ok (step2 string2Hash StringToNumber f0 f1 st row).
Proof.
  unfold itemCallback, step2, step1, step0.
  cbn [forEach fieldCallback Nat.eqb].
  destruct (same_as (firstDbFieldValue st) (fieldValueOf row f0));
    cbn [mbind Result_bind fieldCallback Nat.eqb forEach];
    match goal with |- context [same_as (secondDbFieldValue ?s) ?v] =>
      destruct (same_as (secondDbFieldValue s) v) end; reflexivity.
Qed.

Lemma forEach_two (f0 f1 : IFieldInstance) (rows : list RowObject) (i : nat)
    (st : DecodeState) :
  forEach (itemCallback string2Hash StringToNumber [Some f0; Some f1]) rows i st =
  Ok (fold_left (step2 string2Hash StringToNumber f0 f1) rows st).
Proof.
  revert i st. induction rows as [|row rest IH]; intros i st; [done|].
  cbn [forEach fold_left]. rewrite itemCallback_two. apply IH.
Qed.

Lemma step2_points (f0 f1 : IFieldInstance) (st : DecodeState) (row : RowObject) :
  exists out,
    groupPoints (step2 string2Hash StringToNumber f0 f1 st row) = groupPoints st ++ out.
Proof.
  unfold step2, step1, step0.
  destruct (same_as (firstDbFieldValue st) (fieldValueOf row f0));
    match goal with |- context [same_as (secondDbFieldValue ?s) ?v] =>
      destruct (same_as (secondDbFieldValue s) v) end;
    cbn; rewrite <- ?app_assoc; eauto.
Qed.

Lemma fold_step2_points (f0 f1 : IFieldInstance) (rows : list RowObject)
    (st : DecodeState) :
  exists out,
    groupPoints (fold_left (step2 string2Hash StringToNumber f0 f1) rows st) =
    groupPoints st ++ out.
Proof.
  revert st. induction rows as [|row rest IH]; intros st.
  - exists []. cbn. by rewrite app_nil_r.
  - cbn [fold_left].
    destruct (IH (step2 string2Hash StringToNumber f0 f1 st row)) as (out & ->).
    destruct (step2_points f0 f1 st row) as (out0 & ->).
    rewrite <- app_assoc. eauto.
Qed.

(** After a row the depth-0 slot stands for the value of that row. *)
Lemma step2_first (f0 f1 : IFieldInstance) (st : DecodeState) (row : RowObject)
    (v : JsValue) :
  same_as (firstDbFieldValue (step2 string2Hash StringToNumber f0 f1 st row)) v =
  strict_equals (fieldValueOf row f0) v.
Proof.
  unfold step2, step1, step0.
  destruct (same_as (firstDbFieldValue st) (fieldValueOf row f0)) eqn:Hsame;
    match goal with |- context [same_as (secondDbFieldValue ?s) ?v] =>
      destruct (same_as (secondDbFieldValue s) v) end;
    cbn; try reflexivity; by apply same_as_Seen_eq.
Qed.

(** When the depth-0 value is new, both headers and the row marker are
    added, whatever the depth-1 slot held before. *)
Lemma step2_changed (f0 f1 : IFieldInstance) (st : DecodeState) (row : RowObject) :
  same_as (firstDbFieldValue st) (fieldValueOf row f0) = false ->
  groupPoints (step2 string2Hash StringToNumber f0 f1 st row) =
  groupPoints st ++ [header f0 0%nat (fieldValueOf row f0);
                     header f1 1%nat (fieldValueOf row f1);
                     marker row].
Proof.
  intros Hnew. unfold step2, step1, step0. rewrite Hnew. cbn.
  by rewrite <- !app_assoc.
Qed.

(** C2. Two-level group-by: a row whose depth-0 value differs from the row
    before it gives a depth-0 Header, then a fresh depth-1 Header, then its
    Row marker, whatever its depth-1 value is (so also when it equals the
    depth-1 value of the row before). Rows (X,A,2), (X,B,1), (Y,A,1) decode
    to Header 0 X, Header 1 A, Row 2, Header 1 B, Row 1, Header 0 Y,
    Header 1 A, Row 1. *)
Theorem two_level_depth1_resets (f0 f1 : IFieldInstance)
    (before after : list RowObject) (prev row : RowObject) :
  (strict_equals (fieldValueOf prev f0) (fieldValueOf row f0) = false ->
   exists outBefore outAfter,
     decode (before ++ [prev]) [Some f0; Some f1] = Ok outBefore
     /\ decode (before ++ prev :: row :: after) [Some f0; Some f1] =
        Ok (outBefore
            ++ [header f0 0%nat (fieldValueOf row f0);
                header f1 1%nat (fieldValueOf row f1);
                marker row]
            ++ outAfter))
  /\ decode [groupedRow2 "X" "A" 2; groupedRow2 "X" "B" 1; groupedRow2 "Y" "A" 1]
            [Some categoryField; Some statusField] =
     Ok [Header (number_to_string (string2Hash "fldCategory_X")) 0 (JString "X");
         Header (number_to_string (string2Hash "fldStatus_A")) 1 (JString "A");
         Row (Num 2);
         Header (number_to_string (string2Hash "fldStatus_B")) 1 (JString "B");
         Row (Num 1);
         Header (number_to_string (string2Hash "fldCategory_Y")) 0 (JString "Y");
         Header (number_to_string (string2Hash "fldStatus_A")) 1 (JString "A");
         Row (Num 1)].
Proof.
  split; [|reflexivity].
  intros Hchange. unfold groupDbCollection2GroupPoints.
  rewrite !forEach_two. cbn [mbind Result_bind].
  rewrite !fold_left_app. cbn [fold_left].
  set (stBefore := fold_left (step2 string2Hash StringToNumber f0 f1) before initialState).
  set (stPrev := step2 string2Hash StringToNumber f0 f1 stBefore prev).
  set (stRow := step2 string2Hash StringToNumber f0 f1 stPrev row).
  destruct (fold_step2_points f0 f1 after stRow) as (outAfter & ->).
  exists (groupPoints stPrev), outAfter. split; [done|].
  f_equal. subst stRow. rewrite step2_changed; [by rewrite <- app_assoc|].
  subst stPrev. by rewrite step2_first.
Qed.

(** ** Decoding at depth 2 and deeper *)

(** One group field adds its header or nothing; from index 2 on it always
    adds its header. *)
Lemma fieldCallback_points (item : RowObject) (st : DecodeState)
    (f : IFieldInstance) (i : nat) :
  exists st' out,
    fieldCallback string2Hash item st (Some f) i = Ok st'
    /\ groupPoints st' = groupPoints st ++ out
    /\ (out = [] \/ out = [header f i (fieldValueOf item f)])
    /\ ((2 <= i)%nat -> out = [header f i (fieldValueOf item f)]).
Proof.
  destruct i as [|[|i]]; cbn [fieldCallback Nat.eqb].
  - destruct (same_as (firstDbFieldValue st) (fieldValueOf item f)).
    + exists st, []. rewrite app_nil_r. split; [done|]. split; [done|].
      split; [by left|lia].
    + eexists _, _. split; [done|]. split; [done|]. split; [by right|done].
  - destruct (same_as (secondDbFieldValue st) (fieldValueOf item f)).
    + exists st, []. rewrite app_nil_r. split; [done|]. split; [done|].
      split; [by left|lia].
    + eexists _, _. split; [done|]. split; [done|]. split; [by right|done].
  - eexists _, _. split; [done|]. split; [done|]. split; [by right|done].
Qed.

(** The headers at depth [d] that the inner loop adds for one row, when it
    starts at index [i]. *)
Lemma inner_loop_points (item : RowObject) (fs : list IFieldInstance) (i : nat)
    (st : DecodeState) (d : nat) :
  (2 <= d)%nat ->
  exists st' out,
    forEach (fieldCallback string2Hash item) (Some <$> fs) i st = Ok st'
    /\ groupPoints st' = groupPoints st ++ out
    /\ List.filter (isHeaderAt d) out =
       (if (i <=? d)%nat
        then match fs !! (d - i)%nat with
             | Some f => [header f d (fieldValueOf item f)]
             | None => []
             end
        else []).
Proof.
  intros Hd. revert i st. induction fs as [|f fs IH]; intros i st.
  - exists st, []. rewrite app_nil_r. repeat split. by destruct (i <=? d)%nat.
  - cbn [fmap list_fmap forEach].
    destruct (fieldCallback_points item st f i) as (st1 & out1 & -> & Hp1 & Hout1 & Hdeep).
    cbn [mbind Result_bind].
    destruct (IH (S i) st1) as (st2 & out2 & -> & Hp2 & Hout2).
    exists st2, (out1 ++ out2). split; [done|].
    split; [by rewrite Hp2, Hp1, <- app_assoc|].
    rewrite List.filter_app, Hout2.
    destruct (decide (i = d)) as [->|Hne].
    + rewrite Hdeep by done. rewrite Nat.sub_diag. cbn [lookup list_lookup].
      cbn [List.filter isHeaderAt header headerOf]. rewrite Nat.eqb_refl.
      rewrite Nat.leb_refl.
      by replace (S d <=? d)%nat with false by (symmetry; apply Nat.leb_gt; lia).
    + assert (Hnone : List.filter (isHeaderAt d) out1 = []).
      { destruct Hout1 as [->| ->]; [done|].
        cbn [List.filter isHeaderAt header headerOf].
        by replace (i =? d)%nat with false by (symmetry; apply Nat.eqb_neq; lia). }
      rewrite Hnone. cbn [app].
      destruct (i <=? d)%nat eqn:Hle.
      * apply Nat.leb_le in Hle.
        replace (S i <=? d)%nat with true by (symmetry; apply Nat.leb_le; lia).
        by replace (d - i)%nat with (S (d - S i)) by lia.
      * apply Nat.leb_gt in Hle.
        by replace (S i <=? d)%nat with false by (symmetry; apply Nat.leb_gt; lia).
Qed.

Lemma itemCallback_unfold (groupFields : list (option IFieldInstance))
    (st : DecodeState) (item : RowObject) (i : nat) :
  itemCallback string2Hash StringToNumber groupFields st item i =
  (st' ← forEach (fieldCallback string2Hash item) groupFields 0%nat st;
   Ok (push (marker item) st')).
Proof. reflexivity. Qed.

Lemma forEach_deep (fs : list IFieldInstance) (rows : list RowObject) (i : nat)
    (st : DecodeState) (d : nat) (f : IFieldInstance) :
  (2 <= d)%nat -> fs !! d = Some f ->
  exists st' out,
    forEach (itemCallback string2Hash StringToNumber (Some <$> fs)) rows i st = Ok st'
    /\ groupPoints st' = groupPoints st ++ out
    /\ List.filter (isHeaderAt d) out =
       map (fun item => header f d (fieldValueOf item f)) rows.
Proof.
  intros Hd Hf. revert i st. induction rows as [|row rest IH]; intros i st.
  - exists st, []. by rewrite app_nil_r.
  - cbn [forEach]. rewrite itemCallback_unfold.
    destruct (inner_loop_points row fs 0 st d Hd) as (st1 & out1 & -> & Hp1 & Hout1).
    cbn [mbind Result_bind].
    match goal with |- context [forEach _ rest (S i) ?s] =>
      destruct (IH (S i) s) as (st2 & out2 & -> & Hp2 & Hout2) end.
    exists st2, (out1 ++ [marker row] ++ out2). split; [done|].
    split.
    + rewrite Hp2. cbn [push groupPoints]. by rewrite Hp1, <- !app_assoc.
    + rewrite !List.filter_app, Hout1, Hout2.
      cbn [Nat.leb]. rewrite Nat.sub_0_r, Hf. done.
Qed.

(** C10. With three or more group fields, the field at depth 2 or deeper
    gives a Header for every result row: the Headers of that depth are, row
    by row, the Headers of the row values, also where a value repeats the one
    of the row before. Rows (X,A,P), (X,B,P) decode with Header 2 P twice,
    and so do rows that agree at every depth. *)
Theorem deep_headers_for_every_row (fs : list IFieldInstance) (rows : list RowObject)
    (d : nat) (f : IFieldInstance) :
  ((2 <= d)%nat -> fs !! d = Some f ->
   exists out,
     decode rows (Some <$> fs) = Ok out
     /\ List.filter (isHeaderAt d) out =
        map (fun item => header f d (fieldValueOf item f)) rows)
  /\ decode [groupedRow3 "X" "A" "P" 1; groupedRow3 "X" "B" "P" 2]
            [Some categoryField; Some statusField; Some ownerField] =
     Ok [Header (number_to_string (string2Hash "fldCategory_X")) 0 (JString "X");
         Header (number_to_string (string2Hash "fldStatus_A")) 1 (JString "A");
         Header (number_to_string (string2Hash "fldOwner_P")) 2 (JString "P");
         Row (Num 1);
         Header (number_to_string (string2Hash "fldStatus_B")) 1 (JString "B");
         Header (number_to_string (string2Hash "fldOwner_P")) 2 (JString "P");
         Row (Num 2)]
  /\ decode [groupedRow3 "X" "A" "P" 1; groupedRow3 "X" "A" "P" 2]
            [Some categoryField; Some statusField; Some ownerField] =
     Ok [Header (number_to_string (string2Hash "fldCategory_X")) 0 (JString "X");
         Header (number_to_string (string2Hash "fldStatus_A")) 1 (JString "A");
         Header (number_to_string (string2Hash "fldOwner_P")) 2 (JString "P");
         Row (Num 1);
         Header (number_to_string (string2Hash "fldOwner_P")) 2 (JString "P");
         Row (Num 2)].
Proof.
  split; [|split; reflexivity].
  intros Hd Hf. unfold groupDbCollection2GroupPoints.
  destruct (forEach_deep fs rows 0 initialState d f Hd Hf) as (st & out & -> & Hp & Hout).
  exists out. split; [|exact Hout].
  cbn [mbind Result_bind]. by rewrite Hp.
Qed.

End DecodeFacts.




(** ** Decoding one statistic *)

Section FormatFacts.

Variable diff : string -> string -> number.

Lemma split_without (c : ascii) (s : string) : without c s = true -> split c s = [s].
Proof.
  induction s as [|c' rest IH]; [done|].
  cbn [without split]. intros H. apply andb_true_iff in H as [Hc Hrest].
  apply negb_true_iff in Hc. rewrite Hc, (IH Hrest). done.
Qed.

Lemma split_joined (c : ascii) (a b : string) :
  without c a = true -> split c (a +:+ String c b) = a :: split c b.
Proof.
  induction a as [|c' rest IH]; intros H.
  - change ("" +:+ String c b) with (String c b). cbn [split].
    by rewrite bool_decide_eq_true_2.
  - cbn [without] in H. apply andb_true_iff in H as [Hc Hrest].
    apply negb_true_iff in Hc.
    change (String c' rest +:+ String c b) with (String c' (rest +:+ String c b)).
    cbn [split]. by rewrite Hc, (IH Hrest).
Qed.

Lemma includes_DateRangeOfMonths : includes defaultToZero DateRangeOfMonths = false.
Proof. reflexivity. Qed.

Lemma truthy_Some (s : string) : truthy (Some s) = negb (bool_decide (s = "")).
Proof. reflexivity. Qed.

(** C5. Date range in months: a pair of date strings joined by a comma
    decodes to the month difference of the date library between the first
    (max) and the second (min); with either side missing, be it empty or
    not there at all, it decodes to 0. The pair 2024-03-15, 2024-01-01
    decodes to 2. *)
Theorem date_range_of_months_decodes (maxTime minTime : string) :
  (without comma maxTime = true -> without comma minTime = true ->
   formatConvertValue diff (JString (maxTime +:+ "," +:+ minTime)) (Some DateRangeOfMonths) =
   JNumber (if bool_decide (maxTime = "") || bool_decide (minTime = "")
            then Num 0 else diff maxTime minTime))
  /\ (without comma maxTime = true ->
      formatConvertValue diff (JString maxTime) (Some DateRangeOfMonths) = JNumber (Num 0))
  /\ formatConvertValue Calendar.diff_month (JString "2024-03-15,2024-01-01")
                        (Some DateRangeOfMonths) = JNumber (Num 2).
Proof.
  split; [|split; [|reflexivity]].
  - intros Hmax Hmin. unfold formatConvertValue, calculateDateRangeOfMonths.
    rewrite bool_decide_eq_true_2 by done.
    change (maxTime +:+ "," +:+ minTime) with (maxTime +:+ String comma minTime).
    rewrite split_joined, split_without by done.
    cbn [lookup list_lookup]. rewrite !truthy_Some.
    rewrite includes_DateRangeOfMonths.
    f_equal. by destruct (bool_decide (maxTime = "")), (bool_decide (minTime = "")).
  - intros Hmax. unfold formatConvertValue, calculateDateRangeOfMonths.
    rewrite bool_decide_eq_true_2 by done.
    rewrite split_without by done. cbn [lookup list_lookup].
    by rewrite includes_DateRangeOfMonths.
Qed.

(** C4. An absent raw value, [undefined] or [null], decodes to the number 0
    for each of the five percent functions, and to an absent value ([null])
    for every other statistic function. *)
Theorem absent_value_decodes (currentValue : JsValue) (aggFunc : StatisticsFunc) :
  currentValue = JUndefined \/ currentValue = JNull ->
  (aggFunc ∈ [PercentEmpty; PercentFilled; PercentUnique; PercentChecked; PercentUnChecked] ->
   formatConvertValue diff currentValue (Some aggFunc) = JNumber (Num 0))
  /\ (aggFunc ∉ [PercentEmpty; PercentFilled; PercentUnique; PercentChecked; PercentUnChecked] ->
      formatConvertValue diff currentValue (Some aggFunc) = JNull).
Proof.
  intros Habsent. split; intros Hfunc.
  - unfold formatConvertValue, includes, defaultToZero.
    rewrite (bool_decide_eq_true_2 _ Hfunc).
    destruct Habsent as [-> | ->]; by destruct (bool_decide (aggFunc = DateRangeOfMonths)).
  - unfold formatConvertValue, includes, defaultToZero.
    rewrite (bool_decide_eq_false_2 _ Hfunc).
    destruct Habsent as [-> | ->]; by destruct (bool_decide (aggFunc = DateRangeOfMonths)).
Qed.

End FormatFacts.

(** ** The shared field lookup map *)

(** The writes of the [reduce], one after the other. *)
Lemma fieldInstanceMapOf_writes (fieldInstances : list IFieldInstance) :
  fieldInstanceMapOf fieldInstances =
  fold_left (fun map write => <[write.1 := write.2]> map)
            (mapWrites fieldInstances) ∅.
Proof.
  unfold fieldInstanceMapOf, mapWrites.
  generalize (∅ : gmap string IFieldInstance).
  induction fieldInstances as [|field rest IH]; intros map; [done|].
  cbn [fold_left flat_map app]. apply IH.
Qed.

Lemma fold_writes_lookup (writes : list (string * IFieldInstance))
    (map : gmap string IFieldInstance) (key : string) :
  fold_left (fun map write => <[write.1 := write.2]> map) writes map !! key =
  match last (filter (fun write => write.1 = key) writes) with
  | Some write => Some write.2
  | None => map !! key
  end.
Proof.
  revert map. induction writes as [|[k field] rest IH]; intros map; [done|].
  cbn [fold_left]. rewrite IH, filter_cons. cbn [fst snd].
  destruct (decide (k = key)) as [->|Hne].
  - rewrite last_cons. destruct (last _); [done|]. apply lookup_insert_eq.
  - destruct (last _); [done|]. by apply lookup_insert_ne.
Qed.

Lemma fold_fields_lookup_other (fieldInstances : list IFieldInstance)
    (map : gmap string IFieldInstance) (key : string) :
  Forall (fun field => id field <> key /\ name field <> key) fieldInstances ->
  fold_left (fun map field => <[name field := field]> (<[id field := field]> map))
            fieldInstances map !! key = map !! key.
Proof.
  intros Hother. revert map.
  induction Hother as [|field rest [Hid Hname] _ IH]; intros map; [done|].
  cbn [fold_left]. rewrite IH.
  by rewrite lookup_insert_ne, lookup_insert_ne.
Qed.

(** C8, amended. Every field is inserted under its id and then under its
    name, the fields taken in list order, and a key that is written more
    than once keeps its last write. So a field whose name equals the id of a
    field that comes before it in the list overwrites that id entry with the
    name mapping. *)
Theorem field_map_last_write_wins (fieldInstances : list IFieldInstance) :
  fieldInstanceMapOf fieldInstances =
    fold_left (fun map write => <[write.1 := write.2]> map)
              (mapWrites fieldInstances) ∅
  /\ (forall key : string,
        fieldInstanceMapOf fieldInstances !! key =
        snd <$> last (filter (fun write => write.1 = key) (mapWrites fieldInstances)))
  /\ (forall (before between after : list IFieldInstance) (f g : IFieldInstance),
        fieldInstances = before ++ f :: between ++ g :: after ->
        name g = id f ->
        Forall (fun field => id field <> id f /\ name field <> id f) after ->
        fieldInstanceMapOf fieldInstances !! id f = Some g).
Proof.
  split; [apply fieldInstanceMapOf_writes|]. split.
  - intros key. rewrite fieldInstanceMapOf_writes, fold_writes_lookup.
    by destruct (last _).
  - intros before between after f g -> Hname Hafter.
    unfold fieldInstanceMapOf.
    replace (before ++ f :: between ++ g :: after)
      with ((before ++ f :: between) ++ g :: after) by (by rewrite <- app_assoc).
    rewrite fold_left_app.
    cbn [fold_left]. rewrite fold_fields_lookup_other by done.
    rewrite Hname. apply lookup_insert_eq.
Qed.

(** C8, as stated, fails when the field that carries the name comes first:
    with the fields B (id fldB, name fldA) and then A (id fldA), the key
    fldA ends on A, its id mapping, and not on B. *)
Lemma field_map_name_first_counterexample :
  name fieldNamedAsId = id fieldWithId
  /\ fieldInstanceMapOf [fieldNamedAsId; fieldWithId] !! "fldA" = Some fieldWithId
  /\ ~ (forall (fieldInstances : list IFieldInstance) (f g : IFieldInstance),
          f ∈ fieldInstances -> g ∈ fieldInstances -> id g <> id f ->
          name g = id f ->
          fieldInstanceMapOf fieldInstances !! id f = Some g).
Proof.
  split; [reflexivity|]. split; [reflexivity|].
  intros Hclaim.
  specialize (Hclaim [fieldNamedAsId; fieldWithId] fieldWithId fieldNamedAsId).
  assert (Hlookup : fieldInstanceMapOf [fieldNamedAsId; fieldWithId] !! "fldA"
                    = Some fieldWithId) by reflexivity.
  change (id fieldWithId) with "fldA" in Hclaim.
  rewrite Hlookup in Hclaim.
  assert (Heq : Some fieldWithId = Some fieldNamedAsId).
  { apply Hclaim; [set_solver|set_solver|done|done]. }
  discriminate Heq.
Qed.

(** ** Requests *)

Section ServiceFacts.

Context {IFilter LinkCell : Type}.
Implicit Types (w : @World IFilter LinkCell) (qb : QueryBuilder).

(** C9. Without a view id, or when the parsed group-by list is absent or
    empty, [getGroupPoints] returns null: no error, and no call to the store
    nor to any other collaborator. *)
Theorem getGroupPoints_nothing_to_group w (tableId : string)
    (query : option (@IGroupPointsRo IFilter)) :
  truthy (query ≫= gp_viewId) = false
  \/ parseGroup w (query ≫= gp_groupBy) = None
  \/ parseGroup w (query ≫= gp_groupBy) = Some [] ->
  getGroupPoints w tableId query = ([], Ok None).
Proof.
  unfold getGroupPoints. intros [Hview | [Hgroup | Hgroup]].
  - by rewrite Hview.
  - destruct (truthy (query ≫= gp_viewId)); [|done]. cbn [negb]. by rewrite Hgroup.
  - destruct (truthy (query ≫= gp_viewId)); [|done]. cbn [negb]. by rewrite Hgroup.
Qed.

(** ** Counting rows *)

Lemma getRowCount_statement w qb :
  getRowCount w qb =
  ([QueryRawUnsafe
      {| tableName := tableName qb;
         columns := [aggregate "count" "*" false (Some "count")];
         counter := []; join := join qb; where_ := where_ qb; group := [];
         having := []; order := []; limit := None; offset := None |}],
   prisma_queryRawUnsafe w
      {| tableName := tableName qb;
         columns := [aggregate "count" "*" false (Some "count")];
         counter := []; join := join qb; where_ := where_ qb; group := [];
         having := []; order := []; limit := None; offset := None |}).
Proof. reflexivity. Qed.

Lemma handleRowCount_executions w (tableId dbTableName : string)
    (fieldInstanceMap : gmap string IFieldInstance) (filter : option IFilter)
    (candidate : option LinkCell) (withUserId : option string) :
  Forall countOnly
    (executions (trace (handleRowCount w tableId dbTableName fieldInstanceMap
                                       filter candidate withUserId))).
Proof.
  unfold handleRowCount.
  destruct filter as [filter|], candidate as [candidate|];
    cbn [call mret Eff_ret mbind Eff_bind];
    try destruct (recordService_buildLinkCandidateQuery w _ tableId candidate);
    rewrite ?getRowCount_statement;
    cbn; repeat constructor.
Qed.

(** C7. Whatever select, count, group, having, order, limit or offset
    clauses the builder carries, [getRowCount] issues one statement, over the
    same table, joins and predicates, whose only projection is the count of
    all rows and which has none of those clauses; so does every statement
    that [handleRowCount] issues after the filter and candidate stages. The
    answer decodes to 0 when there is no row (or no count in it), and to the
    count, a non-negative integer, when the row holds one. *)
Theorem getRowCount_counts_only w qb :
  (exists sql,
     getRowCount w qb = ([QueryRawUnsafe sql], prisma_queryRawUnsafe w sql)
     /\ countOnly sql
     /\ tableName sql = tableName qb /\ join sql = join qb /\ where_ sql = where_ qb)
  /\ (forall tableId dbTableName fieldInstanceMap filter candidate withUserId,
        Forall countOnly
          (executions (trace (handleRowCount w tableId dbTableName fieldInstanceMap
                                             filter candidate withUserId))))
  /\ rowCountOf w [] = Num 0
  /\ (forall (first : RowObject) (rest : list RowObject) (c : Z),
        0 <= c ->
        get first "count" = JBigInt c \/ get first "count" = JNumber (Num c) ->
        rowCountOf w (first :: rest) = Num (Z.of_nat (Z.to_nat c)))
  /\ (forall (first : RowObject) (rest : list RowObject),
        get first "count" = JUndefined \/ get first "count" = JNull ->
        rowCountOf w (first :: rest) = Num 0).
Proof.
  split.
  { eexists. split; [apply getRowCount_statement|]. by repeat split. }
  split; [intros; apply handleRowCount_executions|].
  split; [reflexivity|]. split.
  - intros first rest c Hc [Hcount | Hcount]; cbn [rowCountOf];
      rewrite Hcount, Z2Nat.id by done; reflexivity.
  - intros first rest [Hcount | Hcount]; cbn [rowCountOf]; by rewrite Hcount.
Qed.

(** ** Traces *)

Lemma trace_bind {A B : Type} (m : @Eff IFilter LinkCell A) (f : A -> Eff B) :
  trace (m ≫= f) =
  match outcome m with
  | Ok a => trace m ++ trace (f a)
  | Err _ => trace m
  end.
Proof. destruct m as [calls [a|e]]; cbn; [by destruct (f a)|done]. Qed.

Lemma outcome_bind {A B : Type} (m : @Eff IFilter LinkCell A) (f : A -> Eff B) :
  outcome (m ≫= f) =
  match outcome m with
  | Ok a => outcome (f a)
  | Err e => Err e
  end.
Proof. destruct m as [calls [a|e]]; cbn; [by destruct (f a)|done]. Qed.

Lemma fetchStatisticsParams_quiet w (tableId : string)
    (withView : option (@IWithView IFilter)) (withFieldIds : option (list string)) :
  List.filter isQueryCall (trace (fetchStatisticsParams w tableId withView withFieldIds)) = [].
Proof.
  unfold fetchStatisticsParams, findView, getFieldsData.
  destruct (withView ≫= with_viewId) as [viewId|];
    [destruct (truthy (Some viewId)); cbn [negb];
     [destruct (prisma_view_findFirst w tableId viewId) as [viewRaw|]; [|done]|]|];
    (destruct (prisma_field_findMany w tableId None) as [fieldInstances|]; [|done]);
    cbn [call mret Eff_ret mbind Eff_bind lift app];
    match goal with |- context [buildStatisticsData ?w ?fs ?v ?wv] =>
      destruct (buildStatisticsData w fs v wv) end; done.
Qed.

(** C6. With [filterLinkCellSelected] supplied, [performRowCount] builds
    and executes no query: its trace holds no call to the filter or sort
    compiler, to the candidate narrowing or to the raw execution. Once the
    parameters of the request are resolved and the storage table is found,
    it returns the length of the list of ids that the record service gives
    for the selection; and whenever it returns a row count, that count is
    the length of that list. *)
Theorem performRowCount_selected w (tableId : string)
    (queryRo : @IQueryBaseRo IFilter LinkCell) (selected : LinkCell) :
  filterLinkCellSelected queryRo = Some selected ->
  List.filter isQueryCall (trace (performRowCount w tableId queryRo)) = []
  /\ executions (trace (performRowCount w tableId queryRo)) = []
  /\ (forall params (dbTableName : string) (ids : list string),
        outcome (fetchStatisticsParams w tableId
                   (Some {| with_viewId := ro_viewId queryRo;
                            customFilter := ro_filter queryRo;
                            customFieldStats := None |}) None) = Ok params ->
        prisma_tableMeta_findUnique w tableId = Ok (Some dbTableName) ->
        recordService_getLinkSelectedRecordIds w selected = Ok ids ->
        outcome (performRowCount w tableId queryRo) = Ok (Num (Z.of_nat (length ids))))
  /\ (forall rowCount : number,
        outcome (performRowCount w tableId queryRo) = Ok rowCount ->
        exists ids : list string,
          recordService_getLinkSelectedRecordIds w selected = Ok ids
          /\ rowCount = Num (Z.of_nat (length ids))).
Proof.
  intros Hselected.
  assert (Hquiet : List.filter isQueryCall (trace (performRowCount w tableId queryRo)) = []).
  { unfold performRowCount. rewrite trace_bind.
    set (params := fetchStatisticsParams w tableId _ None).
    assert (Hparams : List.filter isQueryCall (trace params) = [])
      by apply fetchStatisticsParams_quiet.
    destruct (outcome params) as [[statisticsData fieldInstanceMap]|]; [|done].
    rewrite List.filter_app, Hparams, Hselected. cbn [app].
    unfold getDbTableName.
    destruct (prisma_tableMeta_findUnique w tableId) as [[dbTableName|]|]; [|done..].
    by destruct (recordService_getLinkSelectedRecordIds w selected). }
  split; [exact Hquiet|]. split.
  { revert Hquiet. generalize (trace (performRowCount w tableId queryRo)).
    intros calls. induction calls as [|c calls IH]; [done|].
    destruct c; cbn; try discriminate; exact IH. }
  split.
  - intros [statisticsData fieldInstanceMap] dbTableName ids Hparams Htable Hids.
    unfold performRowCount. rewrite outcome_bind, Hparams, Hselected.
    unfold getDbTableName. rewrite Htable. cbn. by rewrite Hids.
  - intros rowCount. unfold performRowCount. rewrite outcome_bind.
    destruct (outcome (fetchStatisticsParams w tableId _ None))
      as [[statisticsData fieldInstanceMap]|]; [|done].
    rewrite Hselected. unfold getDbTableName.
    destruct (prisma_tableMeta_findUnique w tableId) as [[dbTableName|]|]; [|done..].
    destruct (recordService_getLinkSelectedRecordIds w selected) as [ids|]; [|done].
    cbn. intros [= <-]. by exists ids.
Qed.

(** ** The limit pre-check *)

(** C1. When the count that the pre-check reads exceeds the ceiling,
    [getGroupPoints] fails with PayloadTooLarge. The calls of the request
    are the three lookups of the view, the fields and the table, the filter
    compiler for the two builders when there is a filter, and the execution
    of the pre-check: that is the only statement executed, and the sort
    compiler, with which the grouped query is built, is never called. *)
Theorem getGroupPoints_over_limit w (tableId : string)
    (query : @IGroupPointsRo IFilter) (viewId : string) (groupBy : list IGroupItem)
    (viewRaw : option ViewRaw) (fieldInstances : list IFieldInstance)
    (dbTableName : string) (mergedFilter : option IFilter)
    (first : RowObject) (rest : list RowObject) :
  gp_viewId query = Some viewId -> viewId <> "" ->
  parseGroup w (gp_groupBy query) = Some groupBy -> groupBy <> [] ->
  prisma_view_findFirst w tableId viewId = Ok viewRaw ->
  prisma_field_findMany w tableId None = Ok fieldInstances ->
  prisma_tableMeta_findUnique w tableId = Ok (Some dbTableName) ->
  mergeWithDefaultFilter w (viewRaw ≫= view_filter) (gp_filter query) = Ok mergedFilter ->
  prisma_queryRawUnsafe w
    (distinctQuery w dbTableName (fieldInstanceMapOf fieldInstances) mergedFilter
                   (map fieldId groupBy)) = Ok (first :: rest) ->
  number_gt (Number_ (StringToNumber w) (get first "count"))
            (thresholdConfig_maxGroupPoints w) = true ->
  outcome (getGroupPoints w tableId (Some query)) =
    Err (PayloadTooLarge groupingLimitMessage)
  /\ trace (getGroupPoints w tableId (Some query)) =
     [ViewFindFirst tableId viewId; FieldFindMany tableId None;
      TableMetaFindUniqueOrThrow tableId]
     ++ match mergedFilter with
        | Some filter => [FilterQuery (knex dbTableName) filter;
                          FilterQuery (knex dbTableName) filter]
        | None => []
        end
     ++ [QueryRawUnsafe
           (distinctQuery w dbTableName (fieldInstanceMapOf fieldInstances)
                          mergedFilter (map fieldId groupBy))]
  /\ executions (trace (getGroupPoints w tableId (Some query))) =
     [distinctQuery w dbTableName (fieldInstanceMapOf fieldInstances) mergedFilter
                    (map fieldId groupBy)]
  /\ List.filter isSortQuery (trace (getGroupPoints w tableId (Some query))) = [].
Proof.
  intros Hview HviewId Hparse Hgroup HviewRaw Hfields Htable Hmerge Hanswer Hover.
  assert (Htruthy : truthy (Some viewId) = true).
  { cbn. by rewrite bool_decide_eq_false_2. }
  assert (Hrun : getGroupPoints w tableId (Some query) =
    ([ViewFindFirst tableId viewId; FieldFindMany tableId None;
      TableMetaFindUniqueOrThrow tableId]
     ++ match mergedFilter with
        | Some filter => [FilterQuery (knex dbTableName) filter;
                          FilterQuery (knex dbTableName) filter]
        | None => []
        end
     ++ [QueryRawUnsafe
           (distinctQuery w dbTableName (fieldInstanceMapOf fieldInstances)
                          mergedFilter (map fieldId groupBy))],
     Err (PayloadTooLarge groupingLimitMessage))).
  { unfold getGroupPoints. cbn [mbind option_bind]. rewrite Hview, Htruthy.
    cbn [negb]. rewrite Hparse.
    destruct groupBy as [|item groupBy]; [done|].
    unfold findView, getFieldsData, getDbTableName, checkGroupingOverLimit.
    cbn [mbind option_bind with_viewId]. rewrite Htruthy. cbn [negb].
    rewrite HviewRaw, Hfields, Htable.
    cbn [call lift mret Eff_ret mbind Eff_bind findUniqueOrThrow app].
    rewrite Hmerge. unfold distinctQuery in Hanswer.
    destruct mergedFilter as [filter|];
      cbn [call lift mret Eff_ret mbind Eff_bind app];
      unfold toQuery; rewrite Hanswer;
      cbn [call lift mret Eff_ret mbind Eff_bind throw app];
      rewrite Hover; reflexivity. }
  rewrite Hrun. cbn [outcome trace fst snd].
  split; [done|]. split; [done|].
  destruct mergedFilter; split; reflexivity.
Qed.

End ServiceFacts.


(** * The theorems at concrete inputs *)

(** C1 on the dataset [tbl1] grouped by category and status: the store
    answers the pre-check with 5001, above the ceiling of 5000. *)
Lemma getGroupPoints_over_limit_witness :
  outcome (getGroupPoints demoWorld "tbl1" (Some demoGroupQuery)) =
    Err (PayloadTooLarge groupingLimitMessage)
  /\ length (executions (trace (getGroupPoints demoWorld "tbl1" (Some demoGroupQuery))))
     = 1%nat
  /\ List.filter isSortQuery (trace (getGroupPoints demoWorld "tbl1" (Some demoGroupQuery)))
     = [].
Proof.
  destruct (getGroupPoints_over_limit demoWorld "tbl1" demoGroupQuery "viw1"
              [{| fieldId := "fldCategory"; ascending := true |};
               {| fieldId := "fldStatus"; ascending := true |}]
              (Some demoView) [categoryField; statusField] "tbl1_data" None
              (countRowOf 5001) [])
    as (Hout & Htrace & Hexec & Hsort);
    [reflexivity | discriminate | reflexivity | discriminate
    | reflexivity | reflexivity | reflexivity | reflexivity | reflexivity
    | reflexivity | ].
  split; [exact Hout|]. split; [by rewrite Hexec | exact Hsort].
Defined.

(** C2 on the rows (X,A,2) then (Y,A,1): the depth-1 value A repeats, and
    its Header is emitted again. *)
Lemma two_level_depth1_resets_witness :
  strict_equals (fieldValueOf (groupedRow2 "X" "A" 2) categoryField)
                (fieldValueOf (groupedRow2 "Y" "A" 1) categoryField) = false
  /\ exists outBefore outAfter,
       groupDbCollection2GroupPoints lengthHash noNumber
         ([] ++ [groupedRow2 "X" "A" 2]) [Some categoryField; Some statusField]
       = Ok outBefore
       /\ groupDbCollection2GroupPoints lengthHash noNumber
            ([] ++ groupedRow2 "X" "A" 2 :: groupedRow2 "Y" "A" 1 :: [])
            [Some categoryField; Some statusField]
          = Ok (outBefore
                ++ [Header "13" 0 (JString "Y"); Header "11" 1 (JString "A"); Row (Num 1)]
                ++ outAfter).
Proof.
  split; [reflexivity|].
  exact (proj1 (two_level_depth1_resets lengthHash noNumber categoryField statusField
                  [] [] (groupedRow2 "X" "A" 2) (groupedRow2 "Y" "A" 1)) eq_refl).
Defined.

(** C3 on the grouped rows A (count 2) then B (count 1). *)
Lemma single_level_one_header_per_run_witness :
  neighboursDiffer statusField [groupedRow1 "A" 2; groupedRow1 "B" 1] = true
  /\ groupDbCollection2GroupPoints lengthHash noNumber
       [groupedRow1 "A" 2; groupedRow1 "B" 1] [Some statusField]
     = Ok [Header "11" 0 (JString "A"); Row (Num 2);
           Header "11" 0 (JString "B"); Row (Num 1)].
Proof.
  split; [reflexivity|].
  exact (proj1 (proj2 (proj2
           (single_level_one_header_per_run lengthHash noNumber statusField
              [groupedRow1 "A" 2; groupedRow1 "B" 1]))) eq_refl).
Defined.

(** C4 on percent-empty and on a function outside the five. *)
Lemma absent_value_decodes_witness :
  formatConvertValue Calendar.diff_month JNull (Some PercentEmpty) = JNumber (Num 0)
  /\ formatConvertValue Calendar.diff_month JUndefined (Some (OtherStatisticsFunc "sum"))
     = JNull.
Proof.
  split.
  - apply (proj1 (absent_value_decodes Calendar.diff_month JNull PercentEmpty
                    (or_intror eq_refl))).
    apply list_elem_of_here.
  - apply (proj2 (absent_value_decodes Calendar.diff_month JUndefined
                    (OtherStatisticsFunc "sum") (or_introl eq_refl))).
    apply (bool_decide_unpack _). exact I.
Defined.

(** C5 on the pair 2024-03-15, 2024-01-01 and on the first date alone. *)
Lemma date_range_of_months_decodes_witness :
  formatConvertValue Calendar.diff_month (JString "2024-03-15,2024-01-01")
                     (Some DateRangeOfMonths) = JNumber (Num 2)
  /\ formatConvertValue Calendar.diff_month (JString "2024-03-15")
                        (Some DateRangeOfMonths) = JNumber (Num 0).
Proof.
  split.
  - exact (proj1 (date_range_of_months_decodes Calendar.diff_month
                    "2024-03-15" "2024-01-01") eq_refl eq_refl).
  - exact (proj1 (proj2 (date_range_of_months_decodes Calendar.diff_month
                           "2024-03-15" "2024-01-01")) eq_refl).
Defined.

(** C6 on a selection that resolves to five ids. *)
Lemma performRowCount_selected_witness :
  outcome (performRowCount demoWorld "tbl1" demoSelectedQuery) = Ok (Num 5)
  /\ executions (trace (performRowCount demoWorld "tbl1" demoSelectedQuery)) = [].
Proof.
  destruct (performRowCount_selected demoWorld "tbl1" demoSelectedQuery "fldLink" eq_refl)
    as (Hquiet & Hexec & Hcount & _).
  split; [|exact Hexec].
  exact (Hcount _ "tbl1_data" ["rec1"; "rec2"; "rec3"; "rec4"; "rec5"]
                eq_refl eq_refl eq_refl).
Defined.

(** C7 on a row that holds the count 5001. *)
Lemma getRowCount_counts_only_witness :
  rowCountOf demoWorld [countRowOf 5001] = Num 5001.
Proof.
  apply (proj1 (proj2 (proj2 (proj2
           (getRowCount_counts_only demoWorld (knex "tbl1_data")))))
           (countRowOf 5001) [] 5001).
  - discriminate.
  - left. reflexivity.
Defined.

(** C8, amended, on the field A (id fldA) followed by the field B whose
    name is fldA. *)
Lemma field_map_last_write_wins_witness :
  fieldInstanceMapOf [fieldWithId; fieldNamedAsId] !! "fldA" = Some fieldNamedAsId.
Proof.
  apply (proj2 (proj2 (field_map_last_write_wins [fieldWithId; fieldNamedAsId]))
           [] [] [] fieldWithId fieldNamedAsId).
  - reflexivity.
  - reflexivity.
  - constructor.
Defined.

(** C9 on a request without a query. *)
Lemma getGroupPoints_nothing_to_group_witness :
  getGroupPoints demoWorld "tbl1" None = ([], Ok None).
Proof.
  apply getGroupPoints_nothing_to_group. left. reflexivity.
Defined.

(** C10 on two rows that agree at the three depths. *)
Lemma deep_headers_for_every_row_witness :
  exists out,
    groupDbCollection2GroupPoints lengthHash noNumber
      [groupedRow3 "X" "A" "P" 1; groupedRow3 "X" "A" "P" 2]
      (Some <$> [categoryField; statusField; ownerField]) = Ok out
    /\ List.filter (isHeaderAt 2) out =
       [Header "10" 2 (JString "P"); Header "10" 2 (JString "P")].
Proof.
  apply (proj1 (deep_headers_for_every_row lengthHash noNumber
                  [categoryField; statusField; ownerField]
                  [groupedRow3 "X" "A" "P" 1; groupedRow3 "X" "A" "P" 2]
                  2%nat ownerField)).
  - lia.
  - reflexivity.
Defined.

(** * Further properties of the service *)

(** ** The decoded sequence, for any number of group fields *)

Section DecodeMore.

Variable string2Hash : string -> number.
Variable StringToNumber : string -> number.

Abbreviation decode := (groupDbCollection2GroupPoints string2Hash StringToNumber).
Abbreviation header := (headerOf string2Hash).
Abbreviation marker := (rowMarker StringToNumber).

(** A group field that is there adds its header at its index, or nothing. *)
Lemma fieldCallback_present (item : RowObject) (st : DecodeState)
    (f : IFieldInstance) (i : nat) :
  exists st' out,
    fieldCallback string2Hash item st (Some f) i = Ok st'
    /\ groupPoints st' = groupPoints st ++ out
    /\ (out = [] \/ out = [header f i (fieldValueOf item f)]).
Proof.
  destruct i as [|[|i]]; cbn [fieldCallback Nat.eqb].
  - destruct (same_as (firstDbFieldValue st) (fieldValueOf item f)).
    + exists st, []. rewrite app_nil_r. split; [done|]. split; [done|]. by left.
    + eexists _, _. split; [done|]. split; [done|]. by right.
  - destruct (same_as (secondDbFieldValue st) (fieldValueOf item f)).
    + exists st, []. rewrite app_nil_r. split; [done|]. split; [done|]. by left.
    + eexists _, _. split; [done|]. split; [done|]. by right.
  - eexists _, _. split; [done|]. split; [done|]. by right.
Qed.

(** The inner loop over fields that are all there: it succeeds, and adds
    headers only, at most one per field, at depths from [i] on. *)
Lemma inner_loop_present (item : RowObject) (fs : list IFieldInstance) (i : nat)
    (st : DecodeState) :
  exists st' out,
    forEach (fieldCallback string2Hash item) (Some <$> fs) i st = Ok st'
    /\ groupPoints st' = groupPoints st ++ out
    /\ List.filter isRow out = []
    /\ Forall (depthBelow (i + length fs)) out
    /\ (length out <= length fs)%nat.
Proof.
  revert i st. induction fs as [|f fs IH]; intros i st.
  - exists st, []. rewrite app_nil_r. repeat split; [constructor|done].
  - cbn [fmap list_fmap forEach].
    destruct (fieldCallback_present item st f i) as (st1 & out1 & -> & Hp1 & Hout1).
    cbn [mbind Result_bind].
    destruct (IH (S i) st1) as (st2 & out2 & -> & Hp2 & Hrows & Hdepth & Hlen).
    exists st2, (out1 ++ out2). split; [done|].
    split; [by rewrite Hp2, Hp1, <- app_assoc|].
    replace (i + length (f :: fs))%nat with (S i + length fs)%nat by (cbn; lia).
    destruct Hout1 as [-> | ->]; cbn [app List.filter isRow header headerOf length].
    + split; [done|]. split; [done|]. lia.
    + split; [done|]. split; [|lia].
      constructor; [cbn; lia|done].
Qed.

Lemma outer_loop_present (fs : list IFieldInstance) (rows : list RowObject) (i : nat)
    (st : DecodeState) :
  exists st' out,
    forEach (itemCallback string2Hash StringToNumber (Some <$> fs)) rows i st = Ok st'
    /\ groupPoints st' = groupPoints st ++ out
    /\ List.filter isRow out = map marker rows
    /\ Forall (depthBelow (length fs)) out
    /\ (length out <= length rows * S (length fs))%nat.
Proof.
  revert i st. induction rows as [|row rest IH]; intros i st.
  - exists st, []. rewrite app_nil_r. repeat split; [constructor|done].
  - cbn [forEach]. rewrite itemCallback_unfold.
    destruct (inner_loop_present row fs 0 st) as (st1 & out1 & -> & Hp1 & Hrows1 & Hdepth1 & Hlen1).
    cbn [mbind Result_bind].
    match goal with |- context [forEach _ rest (S i) ?s] =>
      destruct (IH (S i) s) as (st2 & out2 & -> & Hp2 & Hrows2 & Hdepth2 & Hlen2) end.
    exists st2, (out1 ++ [marker row] ++ out2). split; [done|].
    split; [rewrite Hp2; cbn [push groupPoints]; by rewrite Hp1, <- !app_assoc|].
    split; [by rewrite !List.filter_app, Hrows1, Hrows2|].
    split.
    + apply Forall_app. split; [exact Hdepth1|].
      apply Forall_app. split; [by repeat constructor|exact Hdepth2].
    + rewrite !length_app. cbn [length]. lia.
Qed.

(** X1. When every group field is known the decode succeeds, whatever the
    rows hold; the Row markers of the output are, in order, one per result
    row with the number of its [__c]; every Header lies at a depth below the
    number of group fields; and the output has at most one point per field
    and one more per row. *)
Theorem decode_row_markers (fs : list IFieldInstance) (rows : list RowObject) :
  exists out,
    decode rows (Some <$> fs) = Ok out
    /\ List.filter isRow out = map marker rows
    /\ Forall (depthBelow (length fs)) out
    /\ (length out <= length rows * S (length fs))%nat.
Proof.
  unfold groupDbCollection2GroupPoints.
  destruct (outer_loop_present fs rows 0 initialState)
    as (st & out & -> & Hp & Hrows & Hdepth & Hlen).
  exists out. cbn [mbind Result_bind]. by rewrite Hp.
Qed.

Lemma inner_loop_undefined (item : RowObject) (fields : list (option IFieldInstance))
    (i : nat) (st : DecodeState) :
  None ∈ fields ->
  forEach (fieldCallback string2Hash item) fields i st = Err TypeError.
Proof.
  intros Hin. revert i st.
  induction fields as [|field fields IH]; intros i st; [by apply elem_of_nil in Hin|].
  destruct field as [f|]; [|done].
  apply elem_of_cons in Hin as [Hin|Hin]; [done|].
  cbn [forEach].
  destruct (fieldCallback_present item st f i) as (st1 & out1 & -> & _).
  cbn [mbind Result_bind]. by apply IH.
Qed.

Lemma decode_first_row_throws (row : RowObject) (rest : list RowObject)
    (fields : list (option IFieldInstance)) :
  None ∈ fields -> decode (row :: rest) fields = Err TypeError.
Proof.
  intros Hin. unfold groupDbCollection2GroupPoints. cbn [forEach].
  rewrite itemCallback_unfold, inner_loop_undefined by done. reflexivity.
Qed.

(** X2. A group field that the field map does not know reaches the decode
    as [undefined]: with at least one result row the decode throws a
    TypeError, whatever the other fields and rows are; with no row it gives
    the empty sequence. *)
Theorem decode_undefined_field (rows : list RowObject)
    (fields : list (option IFieldInstance)) :
  (None ∈ fields -> rows <> [] -> decode rows fields = Err TypeError)
  /\ decode [] fields = Ok [].
Proof.
  split; [|reflexivity].
  intros Hin Hrows. destruct rows as [|row rest]; [done|].
  by apply decode_first_row_throws.
Qed.

(** After a row of a two-level group-by the depth-1 slot stands for the
    value of that row. *)
Lemma step2_second (f0 f1 : IFieldInstance) (st : DecodeState) (row : RowObject)
    (v : JsValue) :
  same_as (secondDbFieldValue (step2 string2Hash StringToNumber f0 f1 st row)) v =
  strict_equals (fieldValueOf row f1) v.
Proof.
  unfold step2, step1, step0.
  destruct (same_as (firstDbFieldValue st) (fieldValueOf row f0)).
  - destruct (same_as (secondDbFieldValue st) (fieldValueOf row f1)) eqn:Hsame; cbn.
    + by apply same_as_Seen_eq.
    + reflexivity.
  - reflexivity.
Qed.

(** X3. Two-level group-by, a row after another: when both values repeat
    the row before, the row adds its Row marker only; when the depth-0
    value repeats and the depth-1 value is new, the depth-1 Header and the
    Row marker; when the depth-0 value is new, both Headers and the Row
    marker. *)
Theorem two_level_row_output (f0 f1 : IFieldInstance) (before : list RowObject)
    (prev row : RowObject) :
  exists outBefore,
    decode (before ++ [prev]) [Some f0; Some f1] = Ok outBefore
    /\ decode (before ++ [prev; row]) [Some f0; Some f1] =
       Ok (outBefore
           ++ (if strict_equals (fieldValueOf prev f0) (fieldValueOf row f0)
               then if strict_equals (fieldValueOf prev f1) (fieldValueOf row f1)
                    then []
                    else [header f1 1%nat (fieldValueOf row f1)]
               else [header f0 0%nat (fieldValueOf row f0);
                     header f1 1%nat (fieldValueOf row f1)])
           ++ [marker row]).
Proof.
  unfold groupDbCollection2GroupPoints.
  rewrite !forEach_two. cbn [mbind Result_bind].
  rewrite !fold_left_app. cbn [fold_left].
  set (stBefore := fold_left (step2 string2Hash StringToNumber f0 f1) before initialState).
  set (stPrev := step2 string2Hash StringToNumber f0 f1 stBefore prev).
  exists (groupPoints stPrev). split; [done|]. f_equal.
  assert (Hfirst := step2_first string2Hash StringToNumber f0 f1 stBefore prev
                      (fieldValueOf row f0)).
  assert (Hsecond := step2_second f0 f1 stBefore prev (fieldValueOf row f1)).
  fold stPrev in Hfirst, Hsecond.
  unfold step2 at 1, step1, step0. rewrite Hfirst.
  destruct (strict_equals (fieldValueOf prev f0) (fieldValueOf row f0)).
  - rewrite Hsecond.
    destruct (strict_equals (fieldValueOf prev f1) (fieldValueOf row f1)); cbn.
    + done.
    + by rewrite <- app_assoc.
  - cbn. by rewrite <- !app_assoc.
Qed.

(** A row callback that succeeds only adds to the sequence. *)
Lemma fieldCallback_extends (item : RowObject) (st st' : DecodeState)
    (field : option IFieldInstance) (i : nat) :
  fieldCallback string2Hash item st field i = Ok st' ->
  exists out, groupPoints st' = groupPoints st ++ out.
Proof.
  destruct field as [f|]; [|done].
  destruct (fieldCallback_present item st f i) as (st1 & out1 & -> & Hp & _).
  intros [= <-]. eauto.
Qed.

Lemma forEach_extends {A : Type} (callback : DecodeState -> A -> nat -> Result DecodeState)
    (l : list A) (i : nat) (st st' : DecodeState) :
  (forall s s' x j, callback s x j = Ok s' ->
     exists out, groupPoints s' = groupPoints s ++ out) ->
  forEach callback l i st = Ok st' ->
  exists out, groupPoints st' = groupPoints st ++ out.
Proof.
  intros Hcallback. revert i st.
  induction l as [|x l IH]; intros i st; cbn [forEach].
  - intros [= <-]. exists []. by rewrite app_nil_r.
  - destruct (callback st x i) as [s1|] eqn:Hstep; [|done].
    cbn [mbind Result_bind]. intros Hrest.
    destruct (Hcallback _ _ _ _ Hstep) as (out1 & Hp1).
    destruct (IH _ _ Hrest) as (out2 & Hp2).
    exists (out1 ++ out2). by rewrite Hp2, Hp1, <- app_assoc.
Qed.

Lemma itemCallback_extends (fields : list (option IFieldInstance))
    (st st' : DecodeState) (item : RowObject) (i : nat) :
  itemCallback string2Hash StringToNumber fields st item i = Ok st' ->
  exists out, groupPoints st' = groupPoints st ++ out.
Proof.
  rewrite itemCallback_unfold.
  destruct (forEach (fieldCallback string2Hash item) fields 0 st) as [s1|] eqn:Hinner;
    [|done].
  cbn [mbind Result_bind]. intros [= <-].
  destruct (forEach_extends _ _ _ _ _ (fieldCallback_extends item) Hinner) as (out & Hp).
  exists (out ++ [marker item]). cbn [push groupPoints]. by rewrite Hp, <- app_assoc.
Qed.

(** X4. The decode reads the rows from left to right and never goes back on
    what it has emitted: when the rows decode, every prefix of them decodes,
    and to a prefix of the output. *)
Theorem decode_prefix (rows1 rows2 : list RowObject)
    (fields : list (option IFieldInstance)) (out : list IGroupPoint) :
  decode (rows1 ++ rows2) fields = Ok out ->
  exists out1 out2, decode rows1 fields = Ok out1 /\ out = out1 ++ out2.
Proof.
  unfold groupDbCollection2GroupPoints. rewrite forEach_app.
  destruct (forEach (itemCallback string2Hash StringToNumber fields) rows1 0 initialState)
    as [st1|] eqn:Hfirst; [|done].
  cbn [mbind Result_bind].
  destruct (forEach _ rows2 _ st1) as [st2|] eqn:Hrest; [|done].
  cbn [mbind Result_bind]. intros [= <-].
  destruct (forEach_extends _ _ _ _ _ (itemCallback_extends fields) Hrest) as (out2 & Hp).
  exists (groupPoints st1), out2. done.
Qed.

End DecodeMore.

(** X2 on one row grouped by the status and by a field that is not known. *)
Lemma decode_undefined_field_witness :
  groupDbCollection2GroupPoints lengthHash noNumber [groupedRow1 "A" 2]
    [Some statusField; None] = Err TypeError.
Proof.
  apply (proj1 (decode_undefined_field lengthHash noNumber [groupedRow1 "A" 2]
                  [Some statusField; None])).
  - apply list_elem_of_further, list_elem_of_here.
  - discriminate.
Defined.

(** X4 on the rows A then B, cut after A. *)
Lemma decode_prefix_witness :
  exists out1 out2,
    groupDbCollection2GroupPoints lengthHash noNumber [groupedRow1 "A" 2]
      [Some statusField] = Ok out1
    /\ [Header "11" 0 (JString "A"); Row (Num 2);
        Header "11" 0 (JString "B"); Row (Num 1)] = out1 ++ out2.
Proof.
  apply (decode_prefix lengthHash noNumber [groupedRow1 "A" 2] [groupedRow1 "B" 1]
           [Some statusField]).
  reflexivity.
Defined.

(** ** Resolving the parameters of a request *)

Section ResolverFacts.

Context {IFilter LinkCell : Type}.
Implicit Types (w : @World IFilter LinkCell).

(** X5. [filterFieldInstances] keeps the fields in their order and invents
    none. With a non-empty [customFieldStats] it keeps the fields these name
    and ignores [withFieldIds]; with no [customFieldStats] it keeps the
    fields that a non-empty [withFieldIds] names; an empty [customFieldStats]
    list switches the narrowing off, also when [withFieldIds] names fields. *)
Theorem filterFieldInstances_narrowing (fieldInstances : list IFieldInstance)
    (withView : option (@IWithView IFilter)) (withFieldIds : option (list string)) :
  filterFieldInstances fieldInstances withView withFieldIds `sublist_of` fieldInstances
  /\ (forall stats, withView ≫= customFieldStats = Some stats -> stats <> [] ->
      forall field,
        field ∈ filterFieldInstances fieldInstances withView withFieldIds <->
        field ∈ fieldInstances /\ id field ∈ map stats_fieldId stats)
  /\ (forall ids, withView ≫= customFieldStats = None -> withFieldIds = Some ids ->
      ids <> [] ->
      forall field,
        field ∈ filterFieldInstances fieldInstances withView withFieldIds <->
        field ∈ fieldInstances /\ id field ∈ ids)
  /\ (withView ≫= customFieldStats = Some [] ->
      filterFieldInstances fieldInstances withView withFieldIds = fieldInstances).
Proof.
  unfold filterFieldInstances. split; [|split; [|split]].
  - destruct (withView ≫= customFieldStats) as [stats|].
    + destruct (map stats_fieldId stats); [done|apply sublist_filter].
    + destruct withFieldIds as [[|first others]|]; [done|apply sublist_filter|done].
  - intros stats -> Hstats field.
    destruct stats as [|item stats]; [done|]. cbn [map].
    rewrite list_elem_of_filter. tauto.
  - intros ids -> -> Hids field.
    destruct ids as [|first others]; [done|].
    rewrite list_elem_of_filter. tauto.
  - by intros ->.
Qed.

(** One step of the loop of [getStatisticFields] adds the statistic fields
    of the field, and leaves the list as it is when there are none. *)
Lemma getStatisticFields_fold (fieldInstances : list IFieldInstance)
    (columnMeta : option (gmap string IColumn))
    (customFieldStats : option (list ICustomFieldStats)) :
  getStatisticFields fieldInstances columnMeta customFieldStats =
  match flat_map (fieldStatistics columnMeta customFieldStats) fieldInstances with
  | [] => None
  | fields => Some fields
  end.
Proof.
  unfold getStatisticFields.
  set (step := fun (calculated : option (list IAggregationField)) (field : IFieldInstance) => _).
  assert (Hstep : forall calculated field,
            step calculated field =
            match fieldStatistics columnMeta customFieldStats field with
            | [] => calculated
            | fields => Some (default [] calculated ++ fields)
            end).
  { intros calculated field. subst step. cbn beta.
    unfold fieldStatistics, customFunctions, columnOfView.
    generalize (match columnMeta with Some meta => meta !! id field | None => None end).
    generalize (filter (fun item : ICustomFieldStats => stats_fieldId item = id field)
                       (default [] customFieldStats)).
    intros items col.
    assert (Hsome : forall (A : Type) (x : A), bool_decide (is_Some (Some x)) = true)
      by (intros; apply bool_decide_eq_true_2; eauto).
    assert (Hnone : forall A : Type, bool_decide (is_Some (@None A)) = false)
      by (intros; apply bool_decide_eq_false_2; intros [? ?]; discriminate).
    destruct items as [|item items].
    - rewrite Hnone, orb_false_r. cbn [omap list_omap].
      destruct col as [[hide [func|]]|]; rewrite ?Hsome, ?Hnone;
        cbn [mbind option_bind hidden statisticFunc map];
        try destruct (bool_decide (hide = Some true)); done.
    - rewrite Hsome, orb_true_r.
      generalize (omap stats_statisticFunc (item :: items)). intros fs.
      destruct fs as [|f fs]; destruct col as [[hide [func|]]|];
        cbn [mbind option_bind hidden statisticFunc map];
        try destruct (bool_decide (hide = Some true)); try done;
        by rewrite bool_decide_eq_false_2. }
  assert (Hfold : forall fields calculated,
            calculated <> Some [] ->
            fold_left step fields calculated =
            match default [] calculated
                  ++ flat_map (fieldStatistics columnMeta customFieldStats) fields with
            | [] => None
            | all => Some all
            end).
  { induction fields as [|field fields IH]; intros calculated Hcalculated.
    - cbn. rewrite app_nil_r. by destruct calculated as [[|]|].
    - cbn [fold_left flat_map]. rewrite Hstep.
      destruct (fieldStatistics columnMeta customFieldStats field) as [|entry entries].
      + by rewrite IH.
      + rewrite IH by (by destruct calculated as [[|]|]).
        match goal with |- context [default [] (Some ?l)] =>
          change (default [] (Some l)) with l end.
        by rewrite <- app_assoc. }
  by rewrite Hfold.
Qed.

Lemma fieldStatistics_elem (columnMeta : option (gmap string IColumn))
    (customFieldStats : option (list ICustomFieldStats)) (field : IFieldInstance)
    (entry : IAggregationField) :
  entry ∈ fieldStatistics columnMeta customFieldStats field <->
  agg_fieldId entry = id field
  /\ columnOfView columnMeta (id field) ≫= hidden <> Some true
  /\ (agg_statisticFunc entry ∈ customFunctions customFieldStats (id field)
      \/ (customFunctions customFieldStats (id field) = []
          /\ columnOfView columnMeta (id field) ≫= statisticFunc
             = Some (agg_statisticFunc entry))).
Proof.
  unfold fieldStatistics. destruct entry as [entryId entryFunc]. cbn [agg_fieldId agg_statisticFunc].
  case_bool_decide as Hhidden.
  - split; [by intros ?%elem_of_nil|]. by intros (_ & ? & _).
  - rewrite list_elem_of_fmap.
    destruct (customFunctions customFieldStats (id field)) as [|f fs] eqn:Hcustom.
    + destruct (columnOfView columnMeta (id field) ≫= statisticFunc) as [func|].
      * split.
        -- intros (fn & [= -> ->] & Hfn). apply list_elem_of_singleton in Hfn as ->.
           split; [done|]. split; [done|]. by right.
        -- intros (-> & _ & [Hin | [_ [= ->]]]); [by apply elem_of_nil in Hin|].
           exists entryFunc. split; [done|]. apply list_elem_of_here.
      * split.
        -- by intros (fn & _ & ?%elem_of_nil).
        -- intros (_ & _ & [Hin | [_ ?]]); [by apply elem_of_nil in Hin|done].
    + split.
      * intros (fn & [= -> ->] & Hfn). split; [done|]. split; [done|]. by left.
      * intros (-> & _ & [Hin | [? _]]); [|done]. by exists entryFunc.
Qed.

(** X6. The statistic fields are never an empty list: they are absent or
    hold an entry. An entry is there exactly when its field is one of the
    given fields, the view does not hide that field, and its function is one
    the caller asks for that field, or, when the caller asks none for it,
    the default function of the view for that field. *)
Theorem getStatisticFields_entries (fieldInstances : list IFieldInstance)
    (columnMeta : option (gmap string IColumn))
    (customFieldStats : option (list ICustomFieldStats)) :
  getStatisticFields fieldInstances columnMeta customFieldStats <> Some []
  /\ (forall entry : IAggregationField,
        entry ∈ default [] (getStatisticFields fieldInstances columnMeta customFieldStats)
        <->
        exists field,
          field ∈ fieldInstances
          /\ agg_fieldId entry = id field
          /\ columnOfView columnMeta (id field) ≫= hidden <> Some true
          /\ (agg_statisticFunc entry ∈ customFunctions customFieldStats (id field)
              \/ (customFunctions customFieldStats (id field) = []
                  /\ columnOfView columnMeta (id field) ≫= statisticFunc
                     = Some (agg_statisticFunc entry)))).
Proof.
  rewrite getStatisticFields_fold. split.
  - by destruct (flat_map _ fieldInstances).
  - intros entry.
    assert (Hdefault :
      default [] (match flat_map (fieldStatistics columnMeta customFieldStats)
                                 fieldInstances with
                  | [] => None
                  | fields => Some fields
                  end)
      = flat_map (fieldStatistics columnMeta customFieldStats) fieldInstances)
      by (by destruct (flat_map _ fieldInstances)).
    rewrite Hdefault, list_elem_of_In, in_flat_map. split.
    + intros (field & Hfield & Hentry).
      exists field. split; [by apply list_elem_of_In|].
      by apply fieldStatistics_elem, list_elem_of_In.
    + intros (field & Hfield & Hentry).
      exists field. split; [by apply list_elem_of_In|].
      by apply list_elem_of_In, fieldStatistics_elem.
Qed.

(** X7. A request that names no view and brings no filter and no statistics
    of its own reaches the field store only: the view store, the filter
    merge and the parsing of column metadata are not consulted, and the
    statistics data comes back empty beside the field map; it fails only
    when loading the fields fails. *)
Theorem fetchStatisticsParams_without_view w (tableId : string)
    (withView : @IWithView IFilter) (withFieldIds : option (list string)) :
  truthy (with_viewId withView) = false ->
  customFilter withView = None ->
  customFieldStats withView = None ->
  fetchStatisticsParams w tableId (Some withView) withFieldIds =
  ([FieldFindMany tableId None],
   match prisma_field_findMany w tableId None with
   | Ok fieldInstances =>
     Ok ({| data_viewId := None; data_filter := None; statisticFields := None |},
         fieldInstanceMapOf fieldInstances)
   | Err e => Err e
   end)
  /\ fetchStatisticsParams w tableId None withFieldIds =
     fetchStatisticsParams w tableId (Some withView) withFieldIds.
Proof.
  intros Hview Hfilter Hstats.
  unfold fetchStatisticsParams, findView, getFieldsData, buildStatisticsData.
  cbn [mbind option_bind]. rewrite Hfilter, Hstats.
  destruct (with_viewId withView) as [viewId|].
  - rewrite Hview. cbn [negb].
    by destruct (prisma_field_findMany w tableId None).
  - by destruct (prisma_field_findMany w tableId None).
Qed.

End ResolverFacts.

(** X5 on two fields, narrowed by the statistics asked for the status. *)
Lemma filterFieldInstances_narrowing_witness :
  statusField ∈
    filterFieldInstances [categoryField; statusField]
      (Some {| with_viewId := None; customFilter := @None string;
               customFieldStats :=
                 Some [{| stats_fieldId := "fldStatus";
                          stats_statisticFunc := Some PercentEmpty |}] |})
      (Some ["fldCategory"]).
Proof.
  apply (proj1 (proj2 (filterFieldInstances_narrowing [categoryField; statusField]
           (Some {| with_viewId := None; customFilter := @None string;
                    customFieldStats :=
                      Some [{| stats_fieldId := "fldStatus";
                               stats_statisticFunc := Some PercentEmpty |}] |})
           (Some ["fldCategory"])))
           [{| stats_fieldId := "fldStatus"; stats_statisticFunc := Some PercentEmpty |}]
           eq_refl).
  - discriminate.
  - split.
    + apply list_elem_of_further, list_elem_of_here.
    + apply list_elem_of_here.
Defined.

(** X7 on the dataset [tbl1]. *)
Lemma fetchStatisticsParams_without_view_witness :
  trace (fetchStatisticsParams demoWorld "tbl1"
           (Some {| with_viewId := None; customFilter := None; customFieldStats := None |})
           None)
  = [FieldFindMany "tbl1" None].
Proof.
  exact (f_equal fst (proj1 (fetchStatisticsParams_without_view demoWorld "tbl1"
           {| with_viewId := None; customFilter := None; customFieldStats := None |}
           None eq_refl eq_refl eq_refl))).
Defined.

(** X6 on a view that gives the status a default function, while the caller
    asks another function for the category. *)
Lemma getStatisticFields_entries_witness :
  {| agg_fieldId := "fldStatus"; agg_statisticFunc := PercentFilled |}
  ∈ default []
      (getStatisticFields [categoryField; statusField]
         (Some {[ "fldStatus" := {| hidden := None; statisticFunc := Some PercentFilled |} ]})
         (Some [{| stats_fieldId := "fldCategory";
                   stats_statisticFunc := Some PercentEmpty |}])).
Proof.
  apply (proj2 (getStatisticFields_entries [categoryField; statusField]
           (Some {[ "fldStatus" := {| hidden := None; statisticFunc := Some PercentFilled |} ]})
           (Some [{| stats_fieldId := "fldCategory";
                     stats_statisticFunc := Some PercentEmpty |}]))).
  exists statusField.
  split; [apply list_elem_of_further, list_elem_of_here|].
  split; [reflexivity|]. split; [discriminate|].
  right. split; reflexivity.
Defined.

(** ** Counting rows: failures and the statement of the plain count *)

Section CountFacts.

Context {IFilter LinkCell : Type}.
Implicit Types (w : @World IFilter LinkCell) (qb : QueryBuilder).

Lemma executions_app (calls1 calls2 : list (@Call IFilter LinkCell)) :
  executions (calls1 ++ calls2) = executions calls1 ++ executions calls2.
Proof. unfold executions. apply omap_app. Qed.

Lemma executions_quiet (calls : list (@Call IFilter LinkCell)) :
  List.filter isQueryCall calls = [] -> executions calls = [].
Proof.
  induction calls as [|c calls IH]; [done|].
  destruct c; cbn; try discriminate; exact IH.
Qed.

Lemma fetchStatisticsParams_bare w (tableId : string) :
  fetchStatisticsParams w tableId
    (Some {| with_viewId := None; customFilter := None; customFieldStats := None |})
    None =
  ([FieldFindMany tableId None],
   match prisma_field_findMany w tableId None with
   | Ok fieldInstances =>
     Ok ({| data_viewId := None; data_filter := None; statisticFields := None |},
         fieldInstanceMapOf fieldInstances)
   | Err e => Err e
   end).
Proof.
  unfold fetchStatisticsParams, findView, getFieldsData, buildStatisticsData.
  cbn [mbind option_bind with_viewId customFilter customFieldStats].
  by destruct (prisma_field_findMany w tableId None).
Qed.

(** X8. The statistic fields are resolved for every request, also for a row
    count that does not use them: when the view is found and its stored
    column metadata does not parse, [performRowCount] fails with the error
    of the parser right after the view and the fields are loaded; the table
    is not looked up and nothing is counted. *)
Theorem performRowCount_columnMeta_failure w (tableId : string)
    (queryRo : @IQueryBaseRo IFilter LinkCell) (viewId text : string)
    (view : ViewRaw) (fieldInstances : list IFieldInstance)
    (merged : option IFilter) (e : Error) :
  ro_viewId queryRo = Some viewId -> viewId <> "" ->
  prisma_view_findFirst w tableId viewId = Ok (Some view) ->
  truthy (view_id view) = true ->
  view_columnMeta view = Some text -> text <> "" ->
  prisma_field_findMany w tableId None = Ok fieldInstances ->
  mergeWithDefaultFilter w (view_filter view) (ro_filter queryRo) = Ok merged ->
  JSON_parse w text = Err e ->
  performRowCount w tableId queryRo =
  ([ViewFindFirst tableId viewId; FieldFindMany tableId None], Err e).
Proof.
  intros HviewId Hne Hview Hid Hmeta Htext Hfields Hmerge Hparse.
  assert (Htruthy : forall s : string, s <> "" -> truthy (Some s) = true).
  { intros s Hs. cbn. by rewrite bool_decide_eq_false_2. }
  unfold performRowCount, fetchStatisticsParams, findView, getFieldsData,
    buildStatisticsData.
  cbn [mbind option_bind with_viewId customFilter customFieldStats].
  rewrite HviewId, (Htruthy viewId Hne). cbn [negb].
  rewrite Hview, Hfields.
  cbn [call lift mret Eff_ret mbind Eff_bind option_bind app].
  rewrite Hmerge, Hid, Hmeta, (Htruthy text Htext), Hparse.
  by destruct (truthy (view_filter view) || bool_decide (is_Some (ro_filter queryRo))).
Qed.

(** X9. The table is resolved after the parameters and before the branch on
    the selection: for an unknown table [performRowCount] fails with
    NotFound, with or without [filterLinkCellSelected], and after the
    lookup of the table calls nothing: neither the record service nor the
    store. *)
Theorem performRowCount_unknown_table w (tableId : string)
    (queryRo : @IQueryBaseRo IFilter LinkCell) (calls : list Call)
    (params : IStatisticsData * gmap string IFieldInstance) :
  fetchStatisticsParams w tableId
    (Some {| with_viewId := ro_viewId queryRo; customFilter := ro_filter queryRo;
             customFieldStats := None |}) None = (calls, Ok params) ->
  prisma_tableMeta_findUnique w tableId = Ok None ->
  performRowCount w tableId queryRo =
    (calls ++ [TableMetaFindUniqueOrThrow tableId], Err NotFound)
  /\ executions (trace (performRowCount w tableId queryRo)) = [].
Proof.
  intros Hparams Htable.
  assert (Hrun : performRowCount w tableId queryRo =
                 (calls ++ [TableMetaFindUniqueOrThrow tableId], Err NotFound)).
  { unfold performRowCount. rewrite Hparams. destruct params as [data map].
    unfold getDbTableName. rewrite Htable. reflexivity. }
  split; [exact Hrun|].
  rewrite Hrun. cbn [trace fst]. rewrite executions_app.
  assert (Hquiet := fetchStatisticsParams_quiet w tableId
            (Some {| with_viewId := ro_viewId queryRo; customFilter := ro_filter queryRo;
                     customFieldStats := None |}) None).
  rewrite Hparams in Hquiet. cbn [trace fst] in Hquiet.
  by rewrite (executions_quiet _ Hquiet).
Qed.

(** What [handleRowCount] executes and answers: at most one statement, and
    the answer of the store to it. *)
Lemma handleRowCount_answer w (tableId dbTableName : string)
    (fieldInstanceMap : gmap string IFieldInstance) (filter : option IFilter)
    (candidate : option LinkCell) (withUserId : option string) :
  let run := handleRowCount w tableId dbTableName fieldInstanceMap filter candidate
                            withUserId in
  executions (trace run) = []
  /\ (exists e, outcome run = Err e)
  \/ exists sql, executions (trace run) = [sql]
                 /\ outcome run = prisma_queryRawUnsafe w sql.
Proof.
  unfold handleRowCount.
  destruct filter as [filter|], candidate as [candidate|];
    cbn [call mret Eff_ret mbind Eff_bind];
    try (destruct (recordService_buildLinkCandidateQuery w _ tableId candidate) as [qb|e];
         [|left; cbn; eauto]);
    rewrite getRowCount_statement; right; eexists; cbn; eauto.
Qed.

(** X10. Without [filterLinkCellSelected], [performRowCount] executes at
    most one statement, and its result is the answer of the store to that
    statement: an error of the store is the error of the request, and rows
    are decoded to their count. A request that returns a count has executed
    exactly one statement. *)
Theorem performRowCount_result w (tableId : string)
    (queryRo : @IQueryBaseRo IFilter LinkCell) :
  filterLinkCellSelected queryRo = None ->
  (length (executions (trace (performRowCount w tableId queryRo))) <= 1)%nat
  /\ (forall sql,
        sql ∈ executions (trace (performRowCount w tableId queryRo)) ->
        outcome (performRowCount w tableId queryRo) =
        match prisma_queryRawUnsafe w sql with
        | Ok rows => Ok (rowCountOf w rows)
        | Err e => Err e
        end)
  /\ (forall rowCount,
        outcome (performRowCount w tableId queryRo) = Ok rowCount ->
        exists sql rows,
          executions (trace (performRowCount w tableId queryRo)) = [sql]
          /\ prisma_queryRawUnsafe w sql = Ok rows
          /\ rowCount = rowCountOf w rows).
Proof.
  intros Hselected. unfold performRowCount.
  rewrite trace_bind, outcome_bind.
  set (params := fetchStatisticsParams w tableId _ None).
  assert (Hparams : executions (trace params) = [])
    by apply executions_quiet, fetchStatisticsParams_quiet.
  destruct (outcome params) as [[data map]|e].
  2: { rewrite Hparams. split; [cbn; lia|]. split; [by intros sql ?%elem_of_nil|done]. }
  rewrite Hselected, trace_bind, outcome_bind.
  unfold getDbTableName. cbn [call trace outcome fst snd].
  destruct (prisma_tableMeta_findUnique w tableId) as [[dbTableName|]|e];
    cbn [findUniqueOrThrow].
  2,3: rewrite executions_app, Hparams;
       (split; [cbn; lia|]; split; [by intros sql ?%elem_of_nil|done]).
  rewrite trace_bind, outcome_bind.
  destruct (handleRowCount_answer w tableId dbTableName map (data_filter data)
              (filterLinkCellCandidate queryRo) (cls_user_id w))
    as [[Hnone [e He]] | (sql & Hone & Hanswer)].
  - rewrite He, !executions_app, Hparams, Hnone.
    split; [cbn; lia|]. split; [by intros sql ?%elem_of_nil|done].
  - rewrite Hanswer.
    destruct (prisma_queryRawUnsafe w sql) as [rows|e] eqn:Hstore;
      rewrite ?executions_app, Hparams, Hone; cbn [app mret Eff_ret trace outcome fst snd].
    + split; [cbn; lia|]. split.
      * intros sql' ->%list_elem_of_singleton. by rewrite Hstore.
      * intros rowCount [= <-]. by exists sql, rows.
    + split; [cbn; lia|]. split; [|done].
      intros sql' ->%list_elem_of_singleton. by rewrite Hstore.
Qed.

(** X11. The plain count: a request without view, filter, candidate and
    selection loads the fields, resolves the table and executes the count of
    all rows of the storage table of the dataset, with no predicate and no
    other clause; the result is the decoded answer. *)
Theorem performRowCount_plain w (tableId dbTableName : string)
    (fieldInstances : list IFieldInstance) :
  prisma_field_findMany w tableId None = Ok fieldInstances ->
  prisma_tableMeta_findUnique w tableId = Ok (Some dbTableName) ->
  performRowCount w tableId
    {| ro_viewId := None; ro_filter := None;
       filterLinkCellCandidate := None; filterLinkCellSelected := None |} =
  ([FieldFindMany tableId None; TableMetaFindUniqueOrThrow tableId;
    QueryRawUnsafe
      {| tableName := dbTableName;
         columns := [aggregate "count" "*" false (Some "count")];
         counter := []; join := []; where_ := []; group := []; having := [];
         order := []; limit := None; offset := None |}],
   match prisma_queryRawUnsafe w
           {| tableName := dbTableName;
              columns := [aggregate "count" "*" false (Some "count")];
              counter := []; join := []; where_ := []; group := []; having := [];
              order := []; limit := None; offset := None |} with
   | Ok rows => Ok (rowCountOf w rows)
   | Err e => Err e
   end).
Proof.
  intros Hfields Htable.
  unfold performRowCount.
  cbn [ro_viewId ro_filter filterLinkCellCandidate filterLinkCellSelected].
  rewrite fetchStatisticsParams_bare, Hfields.
  unfold getDbTableName, handleRowCount. rewrite Htable.
  cbn [call mret Eff_ret mbind Eff_bind findUniqueOrThrow app data_filter].
  rewrite getRowCount_statement. cbn [knex tableName join where_ app].
  by destruct (prisma_queryRawUnsafe w _).
Qed.

(** X12. Counting twice from one builder issues the same statement twice:
    the count that the first call has put into the builder is cleared by the
    second before it adds its own. *)
Theorem getRowCount_again w qb :
  exists sql,
    getRowCount w qb = ([QueryRawUnsafe sql], prisma_queryRawUnsafe w sql)
    /\ getRowCount w sql = ([QueryRawUnsafe sql], prisma_queryRawUnsafe w sql).
Proof.
  eexists. split; [apply getRowCount_statement|].
  rewrite getRowCount_statement. reflexivity.
Qed.

End CountFacts.

(** X8 on a view whose column metadata is cut short. *)
Lemma performRowCount_columnMeta_failure_witness :
  performRowCount
    (demoWorldWith (Some viewWithColumnMeta) noParse (Num 5000) (fun _ => Ok []))
    "tbl1" demoViewQuery =
  ([ViewFindFirst "tbl1" "viw1"; FieldFindMany "tbl1" None],
   Err (StoreFailure "Unexpected end of JSON input")).
Proof.
  apply (performRowCount_columnMeta_failure
           (demoWorldWith (Some viewWithColumnMeta) noParse (Num 5000) (fun _ => Ok []))
           "tbl1" demoViewQuery "viw1" "{" viewWithColumnMeta
           [categoryField; statusField] None).
  - reflexivity.
  - discriminate.
  - reflexivity.
  - reflexivity.
  - reflexivity.
  - discriminate.
  - reflexivity.
  - reflexivity.
  - reflexivity.
Defined.

(** X9 on a table that is not there, with a selection. *)
Lemma performRowCount_unknown_table_witness :
  outcome (performRowCount demoWorld "tblUnknown" demoSelectedQuery) = Err NotFound
  /\ executions (trace (performRowCount demoWorld "tblUnknown" demoSelectedQuery)) = [].
Proof.
  destruct (performRowCount_unknown_table demoWorld "tblUnknown" demoSelectedQuery
              _ _ eq_refl eq_refl) as [Hrun Hexec].
  split; [exact (f_equal snd Hrun)|exact Hexec].
Defined.

(** X10 on a count through a view. *)
Lemma performRowCount_result_witness :
  (length (executions (trace (performRowCount demoWorld "tbl1" demoViewQuery))) <= 1)%nat.
Proof.
  exact (proj1 (performRowCount_result demoWorld "tbl1" demoViewQuery eq_refl)).
Defined.

(** X11 on the dataset [tbl1]: the store answers 5001. *)
Lemma performRowCount_plain_witness :
  outcome (performRowCount demoWorld "tbl1"
             {| ro_viewId := None; ro_filter := None;
                filterLinkCellCandidate := None; filterLinkCellSelected := None |})
  = Ok (Num 5001).
Proof.
  exact (f_equal snd (performRowCount_plain demoWorld "tbl1" "tbl1_data"
                        [categoryField; statusField] eq_refl eq_refl)).
Defined.

(** ** Group points: the run of a request once its parameters are resolved *)

Section GroupFacts.

Context {IFilter LinkCell : Type}.
Implicit Types (w : @World IFilter LinkCell) (qb : QueryBuilder).

Lemma getGroupPoints_run w (tableId : string)
    (query : @IGroupPointsRo IFilter) (viewId : string) (groupBy : list IGroupItem)
    (viewRaw : option ViewRaw) (fieldInstances : list IFieldInstance)
    (dbTableName : string) (mergedFilter : option IFilter) :
  gp_viewId query = Some viewId -> viewId <> "" ->
  parseGroup w (gp_groupBy query) = Some groupBy -> groupBy <> [] ->
  prisma_view_findFirst w tableId viewId = Ok viewRaw ->
  prisma_field_findMany w tableId None = Ok fieldInstances ->
  prisma_tableMeta_findUnique w tableId = Ok (Some dbTableName) ->
  mergeWithDefaultFilter w (viewRaw ≫= view_filter) (gp_filter query) = Ok mergedFilter ->
  getGroupPoints w tableId (Some query) =
  match prisma_queryRawUnsafe w
          (distinctQuery w dbTableName (fieldInstanceMapOf fieldInstances) mergedFilter
                         (map fieldId groupBy)) with
  | Err e =>
    (groupingPrefix w tableId viewId dbTableName fieldInstances mergedFilter groupBy,
     Err e)
  | Ok [] =>
    (groupingPrefix w tableId viewId dbTableName fieldInstances mergedFilter groupBy,
     Err TypeError)
  | Ok (first :: _) =>
    if number_gt (Number_ (StringToNumber w) (get first "count"))
                 (thresholdConfig_maxGroupPoints w)
    then
      (groupingPrefix w tableId viewId dbTableName fieldInstances mergedFilter groupBy,
       Err (PayloadTooLarge groupingLimitMessage))
    else
      (groupingPrefix w tableId viewId dbTableName fieldInstances mergedFilter groupBy
       ++ [SortQuery (filteredTable w dbTableName (fieldInstanceMapOf fieldInstances)
                                    mergedFilter) groupBy;
           QueryRawUnsafe (groupedQuery w dbTableName (fieldInstanceMapOf fieldInstances)
                                        mergedFilter groupBy)],
       match prisma_queryRawUnsafe w
               (groupedQuery w dbTableName (fieldInstanceMapOf fieldInstances)
                             mergedFilter groupBy) with
       | Ok result =>
         match groupDbCollection2GroupPoints (string2Hash w) (StringToNumber w) result
                 (map (fun fieldId => fieldInstanceMapOf fieldInstances !! fieldId)
                      (map fieldId groupBy)) with
         | Ok points => Ok (Some points)
         | Err e => Err e
         end
       | Err e => Err e
       end)
  end.
Proof.
  intros Hview HviewId Hparse Hgroup HviewRaw Hfields Htable Hmerge.
  assert (Htruthy : truthy (Some viewId) = true).
  { cbn. by rewrite bool_decide_eq_false_2. }
  unfold getGroupPoints. cbn [mbind option_bind]. rewrite Hview, Htruthy.
  cbn [negb]. rewrite Hparse.
  destruct groupBy as [|item groupBy]; [done|].
  unfold findView, getFieldsData, getDbTableName, checkGroupingOverLimit.
  cbn [mbind option_bind with_viewId]. rewrite Htruthy. cbn [negb].
  rewrite HviewRaw, Hfields, Htable.
  cbn [call lift mret Eff_ret mbind Eff_bind findUniqueOrThrow app].
  rewrite Hmerge. unfold groupingPrefix, toQuery.
  destruct (prisma_queryRawUnsafe w (distinctQuery w dbTableName _ mergedFilter _))
    as [[|first rest]|e] eqn:Hprecheck;
    unfold distinctQuery in Hprecheck;
    [| destruct (number_gt (Number_ (StringToNumber w) (get first "count"))
                           (thresholdConfig_maxGroupPoints w)) eqn:Hover;
       [| destruct (prisma_queryRawUnsafe w (groupedQuery w dbTableName _ mergedFilter _))
            as [result|e] eqn:Hgrouped;
          unfold groupedQuery, filteredTable in Hgrouped ] |];
    unfold groupedQuery, distinctQuery, filteredTable;
    destruct mergedFilter as [filter|];
    cbn [call lift mret Eff_ret mbind Eff_bind app];
    rewrite Hprecheck;
    cbn [call lift mret Eff_ret mbind Eff_bind throw app];
    rewrite ?Hover;
    cbn [call lift mret Eff_ret mbind Eff_bind throw app];
    rewrite ?Hgrouped;
    cbn [call lift mret Eff_ret mbind Eff_bind throw app];
    try reflexivity;
    match goal with |- context [groupDbCollection2GroupPoints ?h ?n ?r ?fs] =>
      destruct (groupDbCollection2GroupPoints h n r fs) end; reflexivity.
Qed.

Lemma executions_groupingPrefix w (tableId viewId dbTableName : string)
    (fieldInstances : list IFieldInstance) (mergedFilter : option IFilter)
    (groupBy : list IGroupItem) :
  executions (groupingPrefix w tableId viewId dbTableName fieldInstances mergedFilter
                             groupBy) =
  [distinctQuery w dbTableName (fieldInstanceMapOf fieldInstances) mergedFilter
                 (map fieldId groupBy)].
Proof. by destruct mergedFilter. Qed.

(** X13. Under the limit: when the count that the pre-check reads does not
    exceed the ceiling, the request goes on to the sort compiler and then
    executes the grouped statement, so two statements in all, the pre-check
    first; its result is the decoded answer to the grouped statement, and an
    error of the store on that statement, or of the decode, is the error of
    the request. *)
Theorem getGroupPoints_under_limit w (tableId : string)
    (query : @IGroupPointsRo IFilter) (viewId : string) (groupBy : list IGroupItem)
    (viewRaw : option ViewRaw) (fieldInstances : list IFieldInstance)
    (dbTableName : string) (mergedFilter : option IFilter)
    (first : RowObject) (rest : list RowObject) :
  gp_viewId query = Some viewId -> viewId <> "" ->
  parseGroup w (gp_groupBy query) = Some groupBy -> groupBy <> [] ->
  prisma_view_findFirst w tableId viewId = Ok viewRaw ->
  prisma_field_findMany w tableId None = Ok fieldInstances ->
  prisma_tableMeta_findUnique w tableId = Ok (Some dbTableName) ->
  mergeWithDefaultFilter w (viewRaw ≫= view_filter) (gp_filter query) = Ok mergedFilter ->
  prisma_queryRawUnsafe w
    (distinctQuery w dbTableName (fieldInstanceMapOf fieldInstances) mergedFilter
                   (map fieldId groupBy)) = Ok (first :: rest) ->
  number_gt (Number_ (StringToNumber w) (get first "count"))
            (thresholdConfig_maxGroupPoints w) = false ->
  trace (getGroupPoints w tableId (Some query)) =
    groupingPrefix w tableId viewId dbTableName fieldInstances mergedFilter groupBy
    ++ [SortQuery (filteredTable w dbTableName (fieldInstanceMapOf fieldInstances)
                                 mergedFilter) groupBy;
        QueryRawUnsafe (groupedQuery w dbTableName (fieldInstanceMapOf fieldInstances)
                                     mergedFilter groupBy)]
  /\ executions (trace (getGroupPoints w tableId (Some query))) =
     [distinctQuery w dbTableName (fieldInstanceMapOf fieldInstances) mergedFilter
                    (map fieldId groupBy);
      groupedQuery w dbTableName (fieldInstanceMapOf fieldInstances) mergedFilter groupBy]
  /\ outcome (getGroupPoints w tableId (Some query)) =
     match prisma_queryRawUnsafe w
             (groupedQuery w dbTableName (fieldInstanceMapOf fieldInstances)
                           mergedFilter groupBy) with
     | Ok result =>
       match groupDbCollection2GroupPoints (string2Hash w) (StringToNumber w) result
               (map (fun fieldId => fieldInstanceMapOf fieldInstances !! fieldId)
                    (map fieldId groupBy)) with
       | Ok points => Ok (Some points)
       | Err e => Err e
       end
     | Err e => Err e
     end.
Proof.
  intros Hview HviewId Hparse Hgroup HviewRaw Hfields Htable Hmerge Hprecheck Hunder.
  rewrite (getGroupPoints_run w tableId query viewId groupBy viewRaw fieldInstances
             dbTableName mergedFilter) by done.
  rewrite Hprecheck, Hunder. cbn [trace outcome fst snd].
  split; [done|]. split; [|done].
  by rewrite executions_app, executions_groupingPrefix.
Qed.

(** X14. The verdict of the pre-check. With no row in the answer the request
    throws a TypeError; an error of the store is the error of the request;
    a count equal to the ceiling passes, since only a greater count is over
    the limit; a first row without a [count] column passes as well. In each
    of the failing cases the pre-check is the only statement executed. *)
Theorem getGroupPoints_precheck_verdict w (tableId : string)
    (query : @IGroupPointsRo IFilter) (viewId : string) (groupBy : list IGroupItem)
    (viewRaw : option ViewRaw) (fieldInstances : list IFieldInstance)
    (dbTableName : string) (mergedFilter : option IFilter) :
  gp_viewId query = Some viewId -> viewId <> "" ->
  parseGroup w (gp_groupBy query) = Some groupBy -> groupBy <> [] ->
  prisma_view_findFirst w tableId viewId = Ok viewRaw ->
  prisma_field_findMany w tableId None = Ok fieldInstances ->
  prisma_tableMeta_findUnique w tableId = Ok (Some dbTableName) ->
  mergeWithDefaultFilter w (viewRaw ≫= view_filter) (gp_filter query) = Ok mergedFilter ->
  let precheck := distinctQuery w dbTableName (fieldInstanceMapOf fieldInstances)
                                mergedFilter (map fieldId groupBy) in
  let run := getGroupPoints w tableId (Some query) in
  (prisma_queryRawUnsafe w precheck = Ok [] ->
   outcome run = Err TypeError /\ executions (trace run) = [precheck])
  /\ (forall e, prisma_queryRawUnsafe w precheck = Err e ->
      outcome run = Err e /\ executions (trace run) = [precheck])
  /\ (forall first rest (c m : Z),
        prisma_queryRawUnsafe w precheck = Ok (first :: rest) ->
        get first "count" = JBigInt c \/ get first "count" = JNumber (Num c) ->
        thresholdConfig_maxGroupPoints w = Num m ->
        (m < c ->
         outcome run = Err (PayloadTooLarge groupingLimitMessage)
         /\ executions (trace run) = [precheck])
        /\ (c <= m -> length (executions (trace run)) = 2%nat))
  /\ (forall first rest,
        prisma_queryRawUnsafe w precheck = Ok (first :: rest) ->
        get first "count" = JUndefined ->
        length (executions (trace run)) = 2%nat).
Proof.
  intros Hview HviewId Hparse Hgroup HviewRaw Hfields Htable Hmerge precheck run.
  subst run precheck.
  rewrite (getGroupPoints_run w tableId query viewId groupBy viewRaw fieldInstances
             dbTableName mergedFilter) by done.
  split; [|split; [|split]].
  - intros ->. cbn [trace outcome fst snd]. by rewrite executions_groupingPrefix.
  - intros e ->. cbn [trace outcome fst snd]. by rewrite executions_groupingPrefix.
  - intros first rest c m -> Hcount ->.
    assert (Hnumber : Number_ (StringToNumber w) (get first "count") = Num c)
      by (by destruct Hcount as [-> | ->]).
    rewrite Hnumber. cbn [number_gt].
    destruct (Z.ltb_spec m c) as [Hlt|Hge]; cbn [trace outcome fst snd].
    + split; [|lia]. intros _. by rewrite executions_groupingPrefix.
    + split; [lia|]. intros _.
      by rewrite executions_app, executions_groupingPrefix.
  - intros first rest -> ->. cbn [Number_ number_gt trace fst].
    by rewrite executions_app, executions_groupingPrefix.
Qed.

(** X15. Nothing is built or executed before the table and the merged
    filter are there: for an unknown table the request fails with NotFound,
    and when the stored filter cannot be merged it fails with the error of
    the merge, in both cases right after the three lookups. *)
Theorem getGroupPoints_resolution_failure w (tableId : string)
    (query : @IGroupPointsRo IFilter) (viewId : string) (groupBy : list IGroupItem)
    (viewRaw : option ViewRaw) (fieldInstances : list IFieldInstance) :
  gp_viewId query = Some viewId -> viewId <> "" ->
  parseGroup w (gp_groupBy query) = Some groupBy -> groupBy <> [] ->
  prisma_view_findFirst w tableId viewId = Ok viewRaw ->
  prisma_field_findMany w tableId None = Ok fieldInstances ->
  (prisma_tableMeta_findUnique w tableId = Ok None ->
   getGroupPoints w tableId (Some query) =
   ([ViewFindFirst tableId viewId; FieldFindMany tableId None;
     TableMetaFindUniqueOrThrow tableId], Err NotFound))
  /\ (forall dbTableName e,
        prisma_tableMeta_findUnique w tableId = Ok (Some dbTableName) ->
        mergeWithDefaultFilter w (viewRaw ≫= view_filter) (gp_filter query) = Err e ->
        getGroupPoints w tableId (Some query) =
        ([ViewFindFirst tableId viewId; FieldFindMany tableId None;
          TableMetaFindUniqueOrThrow tableId], Err e)).
Proof.
  intros Hview HviewId Hparse Hgroup HviewRaw Hfields.
  assert (Htruthy : truthy (Some viewId) = true).
  { cbn. by rewrite bool_decide_eq_false_2. }
  assert (Hstart : forall A (k : option ViewRaw -> Eff A),
            (findView w tableId
               (Some {| with_viewId := Some viewId; customFilter := None;
                        customFieldStats := None |}) ≫= k) =
            (call (ViewFindFirst tableId viewId) (Ok viewRaw) ≫= k)).
  { intros A k. unfold findView. cbn [mbind option_bind with_viewId].
    by rewrite Htruthy, HviewRaw. }
  split.
  - intros Htable. unfold getGroupPoints. cbn [mbind option_bind].
    rewrite Hview, Htruthy. cbn [negb]. rewrite Hparse.
    destruct groupBy as [|item groupBy]; [done|].
    rewrite Hstart. unfold getFieldsData, getDbTableName.
    rewrite Hfields, Htable. reflexivity.
  - intros dbTableName e Htable Hmerge. unfold getGroupPoints. cbn [mbind option_bind].
    rewrite Hview, Htruthy. cbn [negb]. rewrite Hparse.
    destruct groupBy as [|item groupBy]; [done|].
    rewrite Hstart. unfold getFieldsData, getDbTableName.
    rewrite Hfields, Htable.
    cbn [call lift mret Eff_ret mbind Eff_bind findUniqueOrThrow app].
    rewrite Hmerge. reflexivity.
Qed.

(** X16. Grouping by a field id that the dataset does not have: the request
    passes the pre-check and runs the grouped statement, and as soon as that
    statement answers a row it fails with a TypeError. *)
Theorem getGroupPoints_unknown_field w (tableId : string)
    (query : @IGroupPointsRo IFilter) (viewId : string) (groupBy : list IGroupItem)
    (viewRaw : option ViewRaw) (fieldInstances : list IFieldInstance)
    (dbTableName : string) (mergedFilter : option IFilter)
    (first : RowObject) (rest : list RowObject) (item : IGroupItem)
    (row : RowObject) (rows : list RowObject) :
  gp_viewId query = Some viewId -> viewId <> "" ->
  parseGroup w (gp_groupBy query) = Some groupBy -> groupBy <> [] ->
  prisma_view_findFirst w tableId viewId = Ok viewRaw ->
  prisma_field_findMany w tableId None = Ok fieldInstances ->
  prisma_tableMeta_findUnique w tableId = Ok (Some dbTableName) ->
  mergeWithDefaultFilter w (viewRaw ≫= view_filter) (gp_filter query) = Ok mergedFilter ->
  prisma_queryRawUnsafe w
    (distinctQuery w dbTableName (fieldInstanceMapOf fieldInstances) mergedFilter
                   (map fieldId groupBy)) = Ok (first :: rest) ->
  number_gt (Number_ (StringToNumber w) (get first "count"))
            (thresholdConfig_maxGroupPoints w) = false ->
  item ∈ groupBy -> fieldInstanceMapOf fieldInstances !! fieldId item = None ->
  prisma_queryRawUnsafe w
    (groupedQuery w dbTableName (fieldInstanceMapOf fieldInstances) mergedFilter groupBy)
    = Ok (row :: rows) ->
  outcome (getGroupPoints w tableId (Some query)) = Err TypeError.
Proof.
  intros Hview HviewId Hparse Hgroup HviewRaw Hfields Htable Hmerge Hprecheck Hunder
         Hitem Hunknown Hgrouped.
  rewrite (getGroupPoints_run w tableId query viewId groupBy viewRaw fieldInstances
             dbTableName mergedFilter) by done.
  rewrite Hprecheck, Hunder, Hgrouped. cbn [outcome snd].
  rewrite decode_first_row_throws; [done|].
  apply list_elem_of_fmap. exists (fieldId item). split; [done|].
  apply list_elem_of_fmap. by exists item.
Qed.

End GroupFacts.

(** ** The statements of a grouping request *)

Section StatementFacts.

Context {IFilter LinkCell : Type}.
Implicit Types (w : @World IFilter LinkCell) (qb : QueryBuilder).

Lemma countDistinct_fold w (fieldInstanceMap : gmap string IFieldInstance)
    (groupFieldIds : list string) qb :
  fold_left (fun queryBuilder fieldId =>
    match fieldInstanceMap !! fieldId with
    | None => queryBuilder
    | Some field => countDistinct (columnOf w field) queryBuilder
    end) groupFieldIds qb =
  {| tableName := tableName qb;
     columns := columns qb
                ++ map (fun c => aggregate "count" c true None)
                       (groupColumns w fieldInstanceMap groupFieldIds);
     counter := counter qb; join := join qb; where_ := where_ qb; group := group qb;
     having := having qb; order := order qb; limit := limit qb; offset := offset qb |}.
Proof.
  revert qb. induction groupFieldIds as [|fieldId ids IH]; intros qb.
  - cbn. rewrite app_nil_r. by destruct qb.
  - cbn [fold_left]. rewrite IH. unfold groupColumns. cbn [omap list_omap].
    destruct (fieldInstanceMap !! fieldId) as [field|]; cbn [fmap option_fmap option_map];
      [|done].
    cbn [countDistinct addColumn tableName columns counter join where_ group having
         order limit offset map].
    by rewrite <- app_assoc.
Qed.

Lemma select_group_fold w (fieldInstanceMap : gmap string IFieldInstance)
    (groupFieldIds : list string) qb :
  fold_left (fun queryBuilder fieldId =>
    match fieldInstanceMap !! fieldId with
    | None => queryBuilder
    | Some field => groupByRaw (columnOf w field) (select (columnOf w field) queryBuilder)
    end) groupFieldIds qb =
  {| tableName := tableName qb;
     columns := columns qb ++ map column (groupColumns w fieldInstanceMap groupFieldIds);
     counter := counter qb; join := join qb; where_ := where_ qb;
     group := group qb ++ groupColumns w fieldInstanceMap groupFieldIds;
     having := having qb; order := order qb; limit := limit qb; offset := offset qb |}.
Proof.
  revert qb. induction groupFieldIds as [|fieldId ids IH]; intros qb.
  - cbn. rewrite !app_nil_r. by destruct qb.
  - cbn [fold_left]. rewrite IH. unfold groupColumns. cbn [omap list_omap].
    destruct (fieldInstanceMap !! fieldId) as [field|]; cbn [fmap option_fmap option_map];
      [|done].
    cbn [groupByRaw select addColumn tableName columns counter join where_ group having
         order limit offset map].
    by rewrite <- !app_assoc.
Qed.

(** X17. The two statements of a grouping request agree on their
    expressions: over the filtered table, the pre-check adds one distinct
    count for every group field that the field map knows, and the grouped
    statement adds, after the sort, the count of the rows as [__c], then
    these same expressions as columns, and the same expressions, in the same
    order, as group-by clauses; a field id that the map does not know is
    skipped in both. No other clause is touched. *)
Theorem grouping_statements_shape w (dbTableName : string)
    (fieldInstanceMap : gmap string IFieldInstance) (mergedFilter : option IFilter)
    (groupBy : list IGroupItem) :
  let base := filteredTable w dbTableName fieldInstanceMap mergedFilter in
  let sorted := dbProvider_sortQuery w base fieldInstanceMap groupBy in
  let expressions := groupColumns w fieldInstanceMap (map fieldId groupBy) in
  distinctQuery w dbTableName fieldInstanceMap mergedFilter (map fieldId groupBy) =
    {| tableName := tableName base;
       columns := columns base ++ map (fun c => aggregate "count" c true None) expressions;
       counter := counter base; join := join base; where_ := where_ base;
       group := group base; having := having base; order := order base;
       limit := limit base; offset := offset base |}
  /\ groupedQuery w dbTableName fieldInstanceMap mergedFilter groupBy =
     {| tableName := tableName sorted;
        columns := columns sorted
                   ++ aggregate "count" "*" false (Some "__c") :: map column expressions;
        counter := counter sorted; join := join sorted; where_ := where_ sorted;
        group := group sorted ++ expressions;
        having := having sorted; order := order sorted;
        limit := limit sorted; offset := offset sorted |}
  /\ length expressions =
     length (filter (fun item => is_Some (fieldInstanceMap !! fieldId item)) groupBy).
Proof.
  intros base sorted expressions. split; [|split].
  - unfold distinctQuery. fold base. by rewrite countDistinct_fold.
  - unfold groupedQuery. fold base. fold sorted. rewrite select_group_fold.
    cbn [count addColumn tableName columns counter join where_ group having order
         limit offset].
    by rewrite <- app_assoc.
  - subst expressions. unfold groupColumns. clear base sorted.
    induction groupBy as [|item groupBy IH]; [done|].
    cbn [map omap list_omap]. rewrite filter_cons.
    destruct (fieldInstanceMap !! fieldId item) as [field|] eqn:Hfield;
      cbn [fmap option_fmap option_map].
    + rewrite decide_True by eauto. cbn [length]. by rewrite IH.
    + rewrite decide_False by (by intros [? ?]). exact IH.
Qed.

End StatementFacts.

(** X13 on the dataset [tbl1] grouped by category and status, the pre-check
    answered with 2. *)
Lemma getGroupPoints_under_limit_witness :
  outcome (getGroupPoints groupingWorld "tbl1" (Some demoGroupQuery)) =
  Ok (Some [Header "13" 0 (JString "X"); Header "11" 1 (JString "A"); Row (Num 2);
            Header "11" 1 (JString "B"); Row (Num 1);
            Header "13" 0 (JString "Y"); Header "11" 1 (JString "A"); Row (Num 1)])
  /\ length (executions (trace (getGroupPoints groupingWorld "tbl1" (Some demoGroupQuery))))
     = 2%nat.
Proof.
  destruct (getGroupPoints_under_limit groupingWorld "tbl1" demoGroupQuery "viw1"
              [{| fieldId := "fldCategory"; ascending := true |};
               {| fieldId := "fldStatus"; ascending := true |}]
              (Some demoView) [categoryField; statusField] "tbl1_data" None
              (countRowOf 2) [])
    as (Htrace & Hexec & Hout);
    [reflexivity | discriminate | reflexivity | discriminate
    | reflexivity | reflexivity | reflexivity | reflexivity | reflexivity
    | reflexivity | ].
  split; [exact Hout | by rewrite Hexec].
Defined.

(** X14 with a ceiling of 2 and a count of 2: the request goes on. *)
Lemma getGroupPoints_precheck_verdict_witness :
  length (executions (trace (getGroupPoints
            (demoWorldWith (Some demoView) (fun _ => Ok ∅) (Num 2) groupingAnswer)
            "tbl1" (Some demoGroupQuery)))) = 2%nat.
Proof.
  refine (proj2 (proj1 (proj2 (proj2
           (getGroupPoints_precheck_verdict
              (demoWorldWith (Some demoView) (fun _ => Ok ∅) (Num 2) groupingAnswer)
              "tbl1" demoGroupQuery "viw1"
              [{| fieldId := "fldCategory"; ascending := true |};
               {| fieldId := "fldStatus"; ascending := true |}]
              (Some demoView) [categoryField; statusField] "tbl1_data" None
              eq_refl _ eq_refl _ eq_refl eq_refl eq_refl eq_refl)))
           (countRowOf 2) [] 2 2 eq_refl (or_introl eq_refl) eq_refl) _);
    [discriminate | discriminate | discriminate].
Defined.

(** X15 on a table that is not there. *)
Lemma getGroupPoints_resolution_failure_witness :
  outcome (getGroupPoints demoWorld "tblUnknown" (Some demoGroupQuery)) = Err NotFound.
Proof.
  refine (f_equal snd (proj1 (getGroupPoints_resolution_failure demoWorld "tblUnknown"
            demoGroupQuery "viw1"
            [{| fieldId := "fldCategory"; ascending := true |};
             {| fieldId := "fldStatus"; ascending := true |}]
            (Some demoView) [categoryField; statusField]
            eq_refl _ eq_refl _ eq_refl eq_refl) eq_refl));
    discriminate.
Defined.

(** X16 on a group-by list that names a field the dataset does not have. *)
Lemma getGroupPoints_unknown_field_witness :
  outcome (getGroupPoints groupingWorld "tbl1"
             (Some {| gp_viewId := Some "viw1";
                      gp_groupBy := Some [{| fieldId := "fldCategory"; ascending := true |};
                                          {| fieldId := "fldGhost"; ascending := true |}];
                      gp_filter := None |})) = Err TypeError.
Proof.
  refine (getGroupPoints_unknown_field groupingWorld "tbl1"
            {| gp_viewId := Some "viw1";
               gp_groupBy := Some [{| fieldId := "fldCategory"; ascending := true |};
                                   {| fieldId := "fldGhost"; ascending := true |}];
               gp_filter := None |} "viw1"
            [{| fieldId := "fldCategory"; ascending := true |};
             {| fieldId := "fldGhost"; ascending := true |}]
            (Some demoView) [categoryField; statusField] "tbl1_data" None
            (countRowOf 2) [] {| fieldId := "fldGhost"; ascending := true |}
            (groupedRow2 "X" "A" 2) [groupedRow2 "X" "B" 1; groupedRow2 "Y" "A" 1]
            eq_refl _ eq_refl _ eq_refl eq_refl eq_refl eq_refl eq_refl eq_refl
            _ eq_refl eq_refl);
    [discriminate | discriminate | apply list_elem_of_further, list_elem_of_here].
Defined.

(** ** The field map: what it holds and when a lookup gives the field back *)

Lemma mapWrites_elem (fieldInstances : list IFieldInstance) (key : string)
    (field : IFieldInstance) :
  (key, field) ∈ mapWrites fieldInstances <->
  field ∈ fieldInstances /\ (id field = key \/ name field = key).
Proof.
  unfold mapWrites. rewrite list_elem_of_In, in_flat_map. split.
  - intros (f & Hf & Hwrite). apply list_elem_of_In in Hf.
    destruct Hwrite as [[= <- <-] | [[= <- <-] | []]]; eauto.
  - intros (Hf & Hkey). exists field. split; [by apply list_elem_of_In|].
    destruct Hkey as [<- | <-]; cbn; eauto.
Qed.

Lemma fieldInstanceMapOf_lookup_Some (fieldInstances : list IFieldInstance) (key : string)
    (field : IFieldInstance) :
  fieldInstanceMapOf fieldInstances !! key = Some field ->
  field ∈ fieldInstances /\ (id field = key \/ name field = key).
Proof.
  rewrite fieldInstanceMapOf_writes, fold_writes_lookup, lookup_empty.
  destruct (last _) as [[k f]|] eqn:Hlast; [|done].
  intros [= <-]. apply last_Some_elem_of in Hlast.
  apply list_elem_of_filter in Hlast as [Hkey Hwrite]. cbn in Hkey. subst k.
  by apply mapWrites_elem.
Qed.

Lemma fieldInstanceMapOf_lookup_is_Some (fieldInstances : list IFieldInstance)
    (key : string) (field : IFieldInstance) :
  field ∈ fieldInstances -> id field = key \/ name field = key ->
  is_Some (fieldInstanceMapOf fieldInstances !! key).
Proof.
  intros Hfield Hkey.
  rewrite fieldInstanceMapOf_writes, fold_writes_lookup.
  assert (Hin : (key, field) ∈ filter (fun write : string * IFieldInstance => write.1 = key)
                                      (mapWrites fieldInstances)).
  { apply list_elem_of_filter. split; [done|]. by apply mapWrites_elem. }
  destruct (last _) as [write|] eqn:Hlast; [by eexists|].
  apply last_None in Hlast. rewrite Hlast in Hin. by apply elem_of_nil in Hin.
Qed.


(** X19. Without collisions the map gives every field back: when two fields
    of the list that share a key (an id or a name of one is an id or a name
    of the other) are always the same field, every field of the list is
    found under its id and under its name. *)
Theorem field_map_round_trip (fieldInstances : list IFieldInstance) :
  (forall f g, f ∈ fieldInstances -> g ∈ fieldInstances ->
     id g = id f \/ name g = id f \/ id g = name f \/ name g = name f -> g = f) ->
  forall field, field ∈ fieldInstances ->
    fieldInstanceMapOf fieldInstances !! id field = Some field
    /\ fieldInstanceMapOf fieldInstances !! name field = Some field.
Proof.
  intros Hunique field Hfield. split.
  - destruct (fieldInstanceMapOf_lookup_is_Some fieldInstances (id field) field)
      as [g Hg]; [done|by left|].
    rewrite Hg. f_equal.
    apply fieldInstanceMapOf_lookup_Some in Hg as [Hin Hkey].
    apply Hunique; [done..|]. tauto.
  - destruct (fieldInstanceMapOf_lookup_is_Some fieldInstances (name field) field)
      as [g Hg]; [done|by right|].
    rewrite Hg. f_equal.
    apply fieldInstanceMapOf_lookup_Some in Hg as [Hin Hkey].
    apply Hunique; [done..|]. tauto.
Qed.


(** X19 on two fields that share no key. *)
Lemma field_map_round_trip_witness :
  fieldInstanceMapOf [categoryField; statusField] !! "fldStatus" = Some statusField
  /\ fieldInstanceMapOf [categoryField; statusField] !! "status" = Some statusField.
Proof.
  refine (field_map_round_trip [categoryField; statusField] _ statusField _).
  - intros f g Hf Hg Hshare.
    apply elem_of_cons in Hf as [-> | Hf];
      [|apply list_elem_of_singleton in Hf as ->];
      (apply elem_of_cons in Hg as [-> | Hg];
       [|apply list_elem_of_singleton in Hg as ->]);
      try reflexivity;
      destruct Hshare as [H | [H | [H | H]]]; discriminate H.
  - apply list_elem_of_further, list_elem_of_here.
Defined.

(** ** The decoded value of a statistic *)

Section FormatMore.

Variable diff : string -> string -> number.

(** X20. The decoded value is a number, a string or null, never another
    kind of value. It is null exactly when the raw value is absent and the
    function, if there is one, is not a percent function. A raw value that is
    there is decoded by the plain conversion (number, ISO date string or
    string) for every function, the date range in months on a string apart:
    the percent default never changes a value that is there. *)
Theorem formatConvertValue_kinds (currentValue : JsValue)
    (aggFunc : option StatisticsFunc) :
  match formatConvertValue diff currentValue aggFunc with
  | JNumber _ | JString _ | JNull => True
  | _ => False
  end
  /\ (formatConvertValue diff currentValue aggFunc = JNull <->
      (currentValue = JUndefined \/ currentValue = JNull)
      /\ (forall fn, aggFunc = Some fn ->
            fn ∉ [PercentEmpty; PercentFilled; PercentUnique; PercentChecked;
                  PercentUnChecked]))
  /\ (currentValue <> JUndefined -> currentValue <> JNull ->
      aggFunc <> Some DateRangeOfMonths \/ (forall s, currentValue <> JString s) ->
      formatConvertValue diff currentValue aggFunc =
      convertValueToNumberOrString currentValue).
Proof.
  assert (Hfive : forall fn,
            fn ∈ [PercentEmpty; PercentFilled; PercentUnique; PercentChecked;
                  PercentUnChecked] -> fn <> DateRangeOfMonths).
  { intros fn Hin ->.
    repeat (apply elem_of_cons in Hin as [Hin|Hin]; [discriminate|]).
    by apply elem_of_nil in Hin. }
  unfold formatConvertValue. destruct aggFunc as [fn|].
  - destruct (decide (fn = DateRangeOfMonths)) as [-> | Hne].
    + rewrite bool_decide_eq_true_2 by done. rewrite includes_DateRangeOfMonths.
      destruct currentValue; cbn; (split; [done|]); (split; [|intros; try done]).
      all: try (split; [intros _; split; [by eauto|]; intros fn [= <-] Hin;
                        by apply (Hfive _ Hin)
                       |done]).
      all: try (split; [done|intros [[?|?] _]; done]).
      all: try (by destruct H1 as [? | Hs]; [|exfalso; eapply Hs]).
    + rewrite bool_decide_eq_false_2 by done. unfold includes, defaultToZero.
      case_bool_decide as Hin;
        destruct currentValue; cbn; (split; [done|]); (split; [|intros; try done]).
      all: try (split; [done|intros [[?|?] Hall]; try done]).
      all: try (by exfalso; apply (Hall fn)).
      all: try (split; [intros _; split; [by eauto|]; by intros ? [= <-]|done]).
  - destruct currentValue; cbn; (split; [done|]); (split; [|intros; try done]).
    all: try (split; [intros _; split; [by eauto|]; intros ? [=]|done]).
    all: try (split; [done|intros [[?|?] _]; done]).
Qed.

End FormatMore.

(** X20 on a percent function and a number that is there. *)
Lemma formatConvertValue_kinds_witness :
  formatConvertValue Calendar.diff_month (JBigInt 40) (Some PercentFilled)
  = JNumber (Num 40).
Proof.
  apply (proj2 (proj2 (formatConvertValue_kinds Calendar.diff_month (JBigInt 40)
                         (Some PercentFilled)))).
  - discriminate.
  - discriminate.
  - left. discriminate.
Defined.

(** ** Aggregations *)

Section AggregationFacts.

Context {IFilter LinkCell : Type}.
Implicit Types (aw : @AggregationWorld IFilter LinkCell).

Lemma truthy_nonempty (s : string) : s <> "" -> truthy (Some s) = true.
Proof. intros Hs. cbn. by rewrite bool_decide_eq_false_2. Qed.

(** X21. Decoding a column of the result row. A key made of a field id, an
    underscore and a function name gives the field id with the value decoded
    for that function; what follows a second underscore is ignored; a key
    with no underscore gives the field id with a null total; a key that is
    empty or starts with an underscore gives no entry. An entry never has an
    empty field id, and never an empty function name. *)
Theorem aggregationOf_key aw (fieldId func : string) (value : JsValue) :
  without underscore fieldId = true -> fieldId <> "" ->
  (without underscore func = true -> func <> "" ->
   aggregationOf aw (fieldId +:+ "_" +:+ func, value) =
     Some {| raw_fieldId := fieldId;
             total := Some (formatConvertValue (dayjs_diff_month aw) value
                              (Some (statisticsFuncOf aw func)), func) |}
   /\ forall rest,
        aggregationOf aw (fieldId +:+ "_" +:+ func +:+ "_" +:+ rest, value) =
        aggregationOf aw (fieldId +:+ "_" +:+ func, value))
  /\ aggregationOf aw (fieldId, value) = Some {| raw_fieldId := fieldId; total := None |}
  /\ aggregationOf aw (fieldId +:+ "_", value)
     = Some {| raw_fieldId := fieldId; total := None |}
  /\ (forall rest, aggregationOf aw ("_" +:+ rest, value) = None)
  /\ aggregationOf aw ("", value) = None
  /\ (forall entry aggregation,
        aggregationOf aw entry = Some aggregation ->
        raw_fieldId aggregation <> ""
        /\ forall v fn, total aggregation = Some (v, fn) -> fn <> "").
Proof.
  intros Hfield Hfieldne.
  assert (Hkey : forall func', without underscore func' = true ->
            aggregationOf aw (fieldId +:+ "_" +:+ func', value) =
            Some {| raw_fieldId := fieldId;
                    total := if truthy (Some func')
                             then Some (formatConvertValue (dayjs_diff_month aw) value
                                          (Some (statisticsFuncOf aw func')), func')
                             else None |}).
  { intros func' Hfunc'. unfold aggregationOf.
    change (fieldId +:+ "_" +:+ func') with (fieldId +:+ String underscore func').
    rewrite split_joined, split_without by done.
    cbn [lookup list_lookup]. rewrite (truthy_nonempty fieldId) by done.
    destruct (truthy (Some func')); reflexivity. }
  split; [|split; [|split; [|split; [|split]]]].
  - intros Hfunc Hfuncne. split.
    + rewrite Hkey by done. by rewrite (truthy_nonempty func).
    + intros rest. rewrite (Hkey func) by done. unfold aggregationOf.
      change (fieldId +:+ "_" +:+ func +:+ "_" +:+ rest)
        with (fieldId +:+ String underscore (func +:+ String underscore rest)).
      rewrite !split_joined by done.
      cbn [lookup list_lookup].
      rewrite (truthy_nonempty fieldId), !(truthy_nonempty func) by done.
      reflexivity.
  - unfold aggregationOf. rewrite split_without by done.
    cbn [lookup list_lookup]. by rewrite (truthy_nonempty fieldId).
  - change (fieldId +:+ "_") with (fieldId +:+ "_" +:+ ""). by rewrite Hkey.
  - intros rest. unfold aggregationOf.
    change ("_" +:+ rest) with ("" +:+ String underscore rest).
    by rewrite split_joined.
  - reflexivity.
  - intros [key v] aggregation. unfold aggregationOf.
    destruct (split underscore key !! 0%nat) as [first|]; [|done].
    destruct (truthy (Some first)) eqn:Hfirst; [|done].
    intros [= <-]. cbn [raw_fieldId total]. split.
    + intros ->. discriminate Hfirst.
    + destruct (split underscore key !! 1%nat) as [second|]; [|done].
      unfold truthy. destruct (decide (second = "")) as [-> | Hne].
      * rewrite bool_decide_eq_true_2 by done. cbn [negb].
        intros v' fn H. discriminate H.
      * rewrite bool_decide_eq_false_2 by done. cbn [negb].
        intros v' fn H Hfn. inversion H. congruence.
Qed.

(** X22. With no statistic field to compute (none resolved, or an empty
    list) an aggregation request ends after the lookup of the table: the
    aggregation compiler is not called, nothing is executed, and the result
    has no aggregation. *)
Theorem performAggregation_without_fields aw (tableId : string)
    (withFieldIds : option (list string)) (withView : option (@IWithView IFilter))
    (calls : list Call) (data : IStatisticsData)
    (fieldInstanceMap : gmap string IFieldInstance) (dbTableName : string) :
  fetchStatisticsParams (base aw) tableId withView withFieldIds
    = (calls, Ok (data, fieldInstanceMap)) ->
  prisma_tableMeta_findUnique (base aw) tableId = Ok (Some dbTableName) ->
  statisticFields data = None \/ statisticFields data = Some [] ->
  performAggregation aw tableId withFieldIds withView =
  (map Shared calls ++ [Shared (TableMetaFindUniqueOrThrow tableId)], Ok []).
Proof.
  intros Hparams Htable Hfields.
  unfold performAggregation, shared, getDbTableName. rewrite Hparams, Htable.
  cbn [fst snd call map mbind AggEff_bind findUniqueOrThrow].
  unfold handleAggregation.
  destruct Hfields as [-> | ->]; cbn [mbind AggEff_bind mret AggEff_ret head];
    by rewrite ?app_nil_r.
Qed.

(** X23. With statistic fields to compute, an aggregation request calls the
    aggregation compiler once, on a builder whose sub-statement [main_table]
    selects all columns of the storage table (with the filter compiled into
    it when there is one) and whose main statement reads from [main_table],
    and executes the text it gives, once. An error of the store is the error
    of the request; no row gives no aggregation; otherwise the columns of
    the first row are decoded, in their order, and further rows are not
    read. *)
Theorem performAggregation_result aw (tableId : string)
    (withFieldIds : option (list string)) (withView : option (@IWithView IFilter))
    (calls : list Call) (data : IStatisticsData)
    (fieldInstanceMap : gmap string IFieldInstance) (dbTableName : string)
    (field : IAggregationField) (fields : list IAggregationField) :
  fetchStatisticsParams (base aw) tableId withView withFieldIds
    = (calls, Ok (data, fieldInstanceMap)) ->
  prisma_tableMeta_findUnique (base aw) tableId = Ok (Some dbTableName) ->
  statisticFields data = Some (field :: fields) ->
  exists queryBuilder sql,
    performAggregation aw tableId withFieldIds withView =
      (map Shared calls
       ++ [Shared (TableMetaFindUniqueOrThrow tableId);
           AggregationQuery queryBuilder "main_table" (field :: fields);
           QueryRawUnsafeSql sql],
       match prisma_queryRawUnsafe_sql aw sql with
       | Ok [] => Ok []
       | Ok (row :: _) => Ok (omap (aggregationOf aw) (Object_entries aw row))
       | Err e => Err e
       end)
    /\ sql = dbProvider_aggregationQuery aw queryBuilder "main_table" fieldInstanceMap
                                         (field :: fields)
    /\ alias queryBuilder = "main_table"
    /\ mainStatement queryBuilder = knex "main_table"
    /\ withStatement queryBuilder =
       match data_filter data with
       | Some filter =>
         dbProvider_filterQuery (base aw)
           {| tableName := dbTableName; columns := [column "*"]; counter := [];
              join := []; where_ := []; group := []; having := []; order := [];
              limit := None; offset := None |}
           fieldInstanceMap filter (cls_user_id (base aw))
       | None =>
         {| tableName := dbTableName; columns := [column "*"]; counter := [];
            join := []; where_ := []; group := []; having := []; order := [];
            limit := None; offset := None |}
       end.
Proof.
  intros Hparams Htable Hfields.
  unfold performAggregation, shared, getDbTableName. rewrite Hparams, Htable.
  cbn [fst snd call map mbind AggEff_bind findUniqueOrThrow].
  unfold handleAggregation. rewrite Hfields.
  exists {| alias := "main_table";
            withStatement :=
              match data_filter data with
              | Some filter =>
                dbProvider_filterQuery (base aw)
                  (from_ dbTableName (select "*" freshBuilder))
                  fieldInstanceMap filter (cls_user_id (base aw))
              | None => from_ dbTableName (select "*" freshBuilder)
              end;
            mainStatement := from_ "main_table" freshBuilder |}.
  eexists. split; [|split; [reflexivity|]].
  - cbn [mbind AggEff_bind mret AggEff_ret].
    destruct (prisma_queryRawUnsafe_sql aw _) as [[|row rows]|e];
      cbn [mbind option_bind head app]; by rewrite ?app_nil_r.
  - cbn [alias mainStatement withStatement]. split; [done|]. split; [done|].
    by destruct (data_filter data).
Qed.

End AggregationFacts.

(** X21 on the column of the filled percentage of the status. *)
Lemma aggregationOf_key_witness :
  aggregationOf demoAggregationWorld ("fldStatus_percentFilled", JNull) =
  Some {| raw_fieldId := "fldStatus";
          total := Some (JNumber (Num 0), "percentFilled") |}.
Proof.
  refine (proj1 (proj1 (aggregationOf_key demoAggregationWorld "fldStatus"
                          "percentFilled" JNull eq_refl _) eq_refl _));
    discriminate.
Defined.

(** X22 on a request that asks for no statistics. *)
Lemma performAggregation_without_fields_witness :
  performAggregation demoAggregationWorld "tbl1" None None =
  ([Shared (FieldFindMany "tbl1" None); Shared (TableMetaFindUniqueOrThrow "tbl1")],
   Ok []).
Proof.
  exact (performAggregation_without_fields demoAggregationWorld "tbl1" None None
           _ _ _ "tbl1_data" eq_refl eq_refl (or_introl eq_refl)).
Defined.

(** X23 on a request for the filled percentage of the status. *)
Lemma performAggregation_result_witness :
  outcome_of_aggregation
    (performAggregation demoAggregationWorld "tbl1" None (Some demoStatsView)) =
  Ok [{| raw_fieldId := "fldStatus";
         total := Some (JNumber (Num 0), "percentFilled") |}].
Proof.
  destruct (performAggregation_result demoAggregationWorld "tbl1" None
              (Some demoStatsView) _ _ _ "tbl1_data"
              {| agg_fieldId := "fldStatus"; agg_statisticFunc := PercentFilled |} []
              eq_refl eq_refl eq_refl)
    as (queryBuilder & sql & Hrun & _).
  rewrite Hrun. reflexivity.
Defined.
